(** * GridManagement: the row classifier and the replay session of
    [server/server.js], embedded in Rocq.

    The file follows the source top-down:
    - [Num]      JavaScript numbers, as exact rationals with NaN and the
                 two infinities;
    - [Js]       the primitive values a spreadsheet cell can hold and the
                 coercions the classifier applies to them ([ToNumber],
                 [ToBoolean], relational comparison, [parseFloat]);
    - [Classifier]  [processRowData], with the module-level variables it
                 reads and writes passed explicitly;
    - [Double]   the arithmetic steps of [processRowData] on binary64
                 floating-point numbers;
    - [Session]  the three request handlers that touch those variables
                 ([/api/uploads], [/api/data/next], [/api/data/summary])
                 and the file store they read and rewrite;
    - [Props]    the vocabulary of the properties proved afterwards.

    Modelling conventions.  [Num] has no rounding, no signed zeros and no
    overflow.  That is what the classification needs: which power source,
    which alerts, which battery action and what counter a row gets depends
    on comparisons between the numbers of its cells only.  The figures
    [processRowData] computes (efficiency, energy contributions, backup
    time) are rounded by JavaScript at every operation; a [ProcessedRow]
    carries them unrounded, and [Double] has the rounded figures.  Whether
    a figure equals another is settled on [Double]; of the unrounded
    fields the theorems use what rounding does not change (a figure
    being NaN or zero, its sign, an order between figures, a threshold
    that is crossed by a wide margin).
    Strings are sequences of bytes, the UTF-8 encoding of the text of a
    cell.  [console.log] and [console.error] have no observable effect on
    the handlers and are dropped.  Reading a workbook and writing it back
    are taken to be inverse to each other on the rows. *)

From Stdlib Require Import ZArith QArith Qabs Lqa String Ascii List Bool Lia DecimalString.
From Stdlib Require Floats Uint63.
From stdpp Require Import base option list strings gmap.

Import ListNotations.
Local Open Scope string_scope.
Local Open Scope Z_scope.

(** ** Numbers *)

Module Num.

Inductive num : Type :=
| NaN
| PInf
| NInf
| Fin (q : Q).

(** Finite results are kept in lowest terms, so that equal numbers are
    equal terms. *)
Definition fin (q : Q) : num := Fin (Qred q).

Definition of_Z (z : Z) : num := Fin (inject_Z z).

Definition inf_of_sign (c : comparison) : num :=
  match c with
  | Gt => PInf
  | Lt => NInf
  | Eq => NaN
  end.


Definition sub (a b : num) : num :=
  match a, b with
  | NaN, _ | _, NaN => NaN
  | PInf, PInf | NInf, NInf => NaN
  | PInf, _ | _, NInf => PInf
  | NInf, _ | _, PInf => NInf
  | Fin x, Fin y => fin (x - y)
  end.

Definition mul (a b : num) : num :=
  match a, b with
  | NaN, _ | _, NaN => NaN
  | Fin x, Fin y => fin (x * y)
  | Fin x, PInf | PInf, Fin x => inf_of_sign (x ?= 0)%Q
  | Fin x, NInf | NInf, Fin x => inf_of_sign (0 ?= x)%Q
  | PInf, PInf | NInf, NInf => PInf
  | PInf, NInf | NInf, PInf => NInf
  end.

Definition div (a b : num) : num :=
  match a, b with
  | NaN, _ | _, NaN => NaN
  | Fin x, Fin y =>
      if Qeq_bool y 0 then inf_of_sign (x ?= 0)%Q else fin (x / y)
  | Fin _, (PInf | NInf) => Fin 0
  | PInf, Fin y => match (y ?= 0)%Q with Lt => NInf | _ => PInf end
  | NInf, Fin y => match (y ?= 0)%Q with Lt => PInf | _ => NInf end
  | (PInf | NInf), (PInf | NInf) => NaN
  end.

(** [x < y] on numbers; [None] is the "undefined" answer that a NaN
    operand produces. *)
Definition lt (a b : num) : option bool :=
  match a, b with
  | NaN, _ | _, NaN => None
  | Fin x, Fin y => Some (match (x ?= y)%Q with Lt => true | _ => false end)
  | NInf, NInf | PInf, PInf => Some false
  | NInf, _ | _, PInf => Some true
  | PInf, _ | _, NInf => Some false
  end.

Definition ltb (a b : num) : bool :=
  match lt a b with Some true => true | _ => false end.

(** [x === y] on numbers. *)
Definition eqb (a b : num) : bool :=
  match a, b with
  | Fin x, Fin y => Qeq_bool x y
  | PInf, PInf | NInf, NInf => true
  | _, _ => false
  end.

(** *** Printing ([Number::toString], positional notation only).
    The decimal expansion is exact and cut after 20 fractional digits;
    it agrees with JavaScript on the decimals a spreadsheet holds
    (at most 15 significant digits, magnitude between 1e-6 and 1e21). *)

Definition Z_to_string (z : Z) : string :=
  NilZero.string_of_int (Z.to_int z).

Definition digit_char (d : Z) : ascii :=
  ascii_of_nat (48 + Z.to_nat d).

Fixpoint frac_digits (fuel : nat) (r : Z) (d : Z) : string :=
  match fuel with
  | O => EmptyString
  | S fuel' =>
      if r =? 0 then EmptyString
      else String (digit_char (r * 10 / d)) (frac_digits fuel' (r * 10 mod d) d)
  end.

Definition to_string (a : num) : string :=
  match a with
  | NaN => "NaN"
  | PInf => "Infinity"
  | NInf => "-Infinity"
  | Fin q =>
      let n := Z.abs (Qnum (Qred q)) in
      let d := Zpos (Qden (Qred q)) in
      let sign := if Qnum (Qred q) <? 0 then "-" else "" in
      let frac := frac_digits 20 (n mod d) d in
      sign ++ Z_to_string (n / d)
           ++ (if n mod d =? 0 then "" else "." ++ frac)
  end.

End Num.

Import Num.

(** ** JavaScript values and coercions *)

Module Js.

(** What [XLSX.utils.sheet_to_json] can put in a field: a missing cell
    reads as [undefined]; the others are the primitive types. *)
Inductive value : Type :=
| JUndefined
| JNull
| JBool (b : bool)
| JNumber (n : num)
| JString (s : string).

Inductive error : Type :=
| TypeError (msg : string).

(** The completion of a statement list: normal, or an exception on its
    way to the nearest [catch]. *)
Inductive completion (A : Type) : Type :=
| Normal (a : A)
| Throw (e : error).
Arguments Normal {A} a.
Arguments Throw {A} e.

Definition bind {A B} (c : completion A) (k : A -> completion B) : completion B :=
  match c with
  | Normal a => k a
  | Throw e => Throw e
  end.

(** [try { body } catch (e) { handler e }] *)
Definition try_catch {A} (body : completion A) (handler : error -> completion A)
  : completion A :=
  match body with
  | Normal a => Normal a
  | Throw e => handler e
  end.

(** Assigning to a [const] binding throws, in strict and sloppy code
    alike. *)
Definition assign_const {A} (name : string) : completion A :=
  Throw (TypeError "Assignment to constant variable.").

(** *** Scanning numeric literals *)

(** White space is what [StrWhiteSpaceChar] is: the [WhiteSpace] and the
    [LineTerminator] characters.  Six of them are ASCII (TAB, LF, VT, FF,
    CR and the space); the others take two or three bytes of the string:
    U+00A0 (no-break space), U+1680, U+2000 to U+200A, U+2028, U+2029,
    U+202F, U+205F, U+3000 and U+FEFF (byte order mark). *)
Definition is_white (c : ascii) : bool :=
  let n := nat_of_ascii c in
  ((9 <=? n) && (n <=? 13) || (n =? 32))%nat.

(** U+00A0 is [C2 A0]. *)
Definition is_white2 (c1 c2 : ascii) : bool :=
  ((nat_of_ascii c1 =? 194) && (nat_of_ascii c2 =? 160))%nat.

(** U+1680 is [E1 9A 80]; U+2000 to U+200A are [E2 80 80] to [E2 80 8A];
    U+2028, U+2029 and U+202F are [E2 80 A8], [E2 80 A9] and [E2 80 AF];
    U+205F is [E2 81 9F]; U+3000 is [E3 80 80]; U+FEFF is [EF BB BF]. *)
Definition is_white3 (c1 c2 c3 : ascii) : bool :=
  let a := nat_of_ascii c1 in
  let b := nat_of_ascii c2 in
  let c := nat_of_ascii c3 in
  ((a =? 225) && (b =? 154) && (c =? 128)
   || (a =? 226) && (b =? 128)
      && ((128 <=? c) && (c <=? 138) || (c =? 168) || (c =? 169) || (c =? 175))
   || (a =? 226) && (b =? 129) && (c =? 159)
   || (a =? 227) && (b =? 128) && (c =? 128)
   || (a =? 239) && (b =? 187) && (c =? 191))%nat.

(** [l] without the white space it starts with. *)
Fixpoint trim_left (l : list ascii) : list ascii :=
  match l with
  | c1 :: l1 =>
      if is_white c1 then trim_left l1
      else
        match l1 with
        | c2 :: l2 =>
            if is_white2 c1 c2 then trim_left l2
            else
              match l2 with
              | c3 :: l3 => if is_white3 c1 c2 c3 then trim_left l3 else l
              | [] => l
              end
        | [] => l
        end
  | [] => []
  end.

(** [l] without the white space it ends with: what is left of [l] is cut
    off as soon as it is white space throughout. *)
Fixpoint trim_right (l : list ascii) : list ascii :=
  match l with
  | c :: l' =>
      match trim_left l with
      | [] => []
      | _ :: _ => c :: trim_right l'
      end
  | [] => []
  end.

Definition trim (l : list ascii) : list ascii :=
  trim_right (trim_left l).

Definition digit_value (base : Z) (c : ascii) : option Z :=
  let n := Z.of_nat (nat_of_ascii c) in
  let v :=
    if (48 <=? n) && (n <=? 57) then Some (n - 48)
    else if (97 <=? n) && (n <=? 102) then Some (n - 87)
    else if (65 <=? n) && (n <=? 70) then Some (n - 55)
    else None in
  match v with
  | Some d => if d <? base then Some d else None
  | None => None
  end.

(** The longest run of digits at the head of [l]: its value on top of
    [acc], how many digits it has, and what follows. *)
Fixpoint digits (base : Z) (l : list ascii) (acc : Z) (count : nat)
  : Z * nat * list ascii :=
  match l with
  | c :: l' =>
      match digit_value base c with
      | Some d => digits base l' (acc * base + d) (S count)
      | None => (acc, count, l)
      end
  | [] => (acc, count, [])
  end.

Fixpoint strip_prefix (p l : list ascii) : option (list ascii) :=
  match p, l with
  | [], _ => Some l
  | a :: p', b :: l' => if Ascii.eqb a b then strip_prefix p' l' else None
  | _ :: _, [] => None
  end.

(** An exponent part ([e], an optional sign, digits), when one is
    there. *)
Definition exponent (l : list ascii) : Z * list ascii :=
  match l with
  | c :: l1 =>
      if Ascii.eqb c "e" || Ascii.eqb c "E" then
        let '(neg, l2) :=
          match l1 with
          | s :: l2 =>
              if Ascii.eqb s "-" then (true, l2)
              else if Ascii.eqb s "+" then (false, l2)
              else (false, l1)
          | [] => (false, l1)
          end in
        match digits 10 l2 0 0 with
        | (_, O, _) => (0, l)
        | (e, _, rest) => (if neg then - e else e, rest)
        end
      else (0, l)
  | [] => (0, l)
  end.

(** The longest prefix that is an unsigned decimal literal
    (digits, [digits.], [digits.digits], [.digits], each with an optional
    exponent, or [Infinity]). *)
Definition unsigned_decimal (l : list ascii) : option (num * list ascii) :=
  match strip_prefix (list_ascii_of_string "Infinity") l with
  | Some rest => Some (PInf, rest)
  | None =>
      let '(ip, n1, r1) := digits 10 l 0 0 in
      let mantissa :=
        match r1 with
        | c :: r2 =>
            if Ascii.eqb c "." then
              let '(fp, n2, r3) := digits 10 r2 0 0 in
              match n1, n2 with
              | O, O => None
              | _, _ =>
                  Some ((inject_Z ip + inject_Z fp / inject_Z (10 ^ Z.of_nat n2))%Q, r3)
              end
            else match n1 with O => None | _ => Some (inject_Z ip, r1) end
        | [] => match n1 with O => None | _ => Some (inject_Z ip, r1) end
        end in
      match mantissa with
      | Some (m, r) =>
          let '(e, rest) := exponent r in
          Some (fin (m * Qpower (inject_Z 10) e), rest)
      | None => None
      end
  end.

Definition signed_decimal (l : list ascii) : option (num * list ascii) :=
  match l with
  | c :: l' =>
      if Ascii.eqb c "-" then
        match unsigned_decimal l' with
        | Some (v, rest) => Some (Num.sub (Fin 0) v, rest)
        | None => None
        end
      else if Ascii.eqb c "+" then unsigned_decimal l'
      else unsigned_decimal l
  | [] => None
  end.

(** [parseFloat(s)]: leading white space is skipped, then the longest
    decimal prefix is read; anything after it is ignored. *)
Definition parseFloat (s : string) : num :=
  match signed_decimal (trim_left (list_ascii_of_string s)) with
  | Some (v, _) => v
  | None => NaN
  end.

(** [0x], [0o] and [0b] literals, which only the implicit conversion
    accepts. *)
Definition radix_literal (l : list ascii) : option num :=
  match l with
  | z :: r :: l' =>
      let base :=
        if Ascii.eqb r "x" || Ascii.eqb r "X" then Some 16
        else if Ascii.eqb r "o" || Ascii.eqb r "O" then Some 8
        else if Ascii.eqb r "b" || Ascii.eqb r "B" then Some 2
        else None in
      match Ascii.eqb z "0", base with
      | true, Some b =>
          match digits b l' 0 0 with
          | (_, O, _) => None
          | (v, _, []) => Some (of_Z v)
          | _ => None
          end
      | _, _ => None
      end
  | _ => None
  end.

(** The implicit string-to-number conversion: the whole trimmed string
    must be a literal, and the empty string is zero. *)
Definition string_to_number (s : string) : num :=
  match trim (list_ascii_of_string s) with
  | [] => Fin 0
  | l =>
      match signed_decimal l with
      | Some (v, []) => v
      | _ =>
          match radix_literal l with
          | Some v => v
          | None => NaN
          end
      end
  end.

(** *** Coercions *)

Definition to_number (v : value) : num :=
  match v with
  | JUndefined => NaN
  | JNull => Fin 0
  | JBool true => Fin 1
  | JBool false => Fin 0
  | JNumber n => n
  | JString s => string_to_number s
  end.

Definition to_boolean (v : value) : bool :=
  match v with
  | JUndefined | JNull => false
  | JBool b => b
  | JNumber NaN => false
  | JNumber (Fin q) => negb (Qeq_bool q 0)
  | JNumber _ => true
  | JString s => negb (String.eqb s "")
  end.

Definition to_string (v : value) : string :=
  match v with
  | JUndefined => "undefined"
  | JNull => "null"
  | JBool true => "true"
  | JBool false => "false"
  | JNumber n => Num.to_string n
  | JString s => s
  end.

(** *** Operators *)

(** The relational comparison behind [<], [>], [<=], [>=]: two strings
    compare by code units, anything else as numbers. *)
Definition less_than (x y : value) : option bool :=
  match x, y with
  | JString a, JString b => Some (String.ltb a b)
  | _, _ => Num.lt (to_number x) (to_number y)
  end.

Definition op_lt (x y : value) : bool :=
  match less_than x y with Some true => true | _ => false end.

Definition op_gt (x y : value) : bool :=
  match less_than y x with Some true => true | _ => false end.

Definition op_ge (x y : value) : bool :=
  match less_than x y with Some false => true | _ => false end.

Definition strict_eq (x y : value) : bool :=
  match x, y with
  | JUndefined, JUndefined | JNull, JNull => true
  | JBool a, JBool b => Bool.eqb a b
  | JNumber a, JNumber b => Num.eqb a b
  | JString a, JString b => String.eqb a b
  | _, _ => false
  end.

End Js.

Import Js.

(** ** The row classifier: [processRowData] *)

Module Classifier.

Inductive PowerSource : Type :=
| Solar
| Grid
| SolarGrid        (* "Solar+Grid" *)
| SolarBattery     (* "Solar+Battery" *)
| Battery.

Inductive BatteryAction : Type :=
| Charging
| Discharging
| Idle.

(** The nine columns [processRowData] destructures from a row. *)
Record RawRow : Type := {
  timestamp : value;
  is_daytime : value;
  solar_input_watts : value;
  grid_status : value;
  household_power_demand_watts : value;
  heavy_appliance_active : value;
  ambient_temperature_celsius : value;
  weather_condition : value;
  battery_percent : value
}.

(** The module-level variables of [server.js]; [lastBatteryAction]
    starts as [null]. *)
Record Globals : Type := {
  currentRowIndex : nat;
  batteryDischargeCycles : Z;
  lastBatteryAction : option BatteryAction
}.

Definition BATTERY_CAPACITY_KWH : num := Fin 10.

Definition initial_globals : Globals :=
  {| currentRowIndex := 0; batteryDischargeCycles := 0; lastBatteryAction := None |}.

(** The object [processRowData] returns: the row's own columns and the
    derived ones.  [power_source] is [undefined] when no branch assigns
    it. *)
Record ProcessedRow : Type := {
  raw : RawRow;
  power_source : option PowerSource;
  battery_action : BatteryAction;
  battery_efficiency : num;
  solar_contribution : num;
  grid_contribution : num;
  battery_contribution : num;
  total_consumption_kwh : num;
  estimated_battery_backup_time : num;
  alerts : string;
  discharge_cycles : Z
}.

Definition is_normal (g : value) : bool := strict_eq g (JString "normal").

(** [grid_status === "power off" || grid_status === "voltage fluctuation"] *)
Definition is_degraded (g : value) : bool :=
  strict_eq g (JString "power off") || strict_eq g (JString "voltage fluctuation").

Definition when (c : value) (a : string) : list string :=
  if to_boolean c then [a] else [].

(** Step 1 (lines 55-113): the power source and the alerts pushed while
    choosing it. *)
Definition classify_power_source (r : RawRow) : option PowerSource * list string :=
  let solar := solar_input_watts r in
  let demand := household_power_demand_watts r in
  let heavy := heavy_appliance_active r in
  if to_boolean (is_daytime r) then
    if is_normal (grid_status r) then
      if op_ge solar demand then (Some Solar, []) else (Some SolarGrid, [])
    else if is_degraded (grid_status r) then
      let '(ps, a) :=
        if op_ge solar demand
        then (Some Solar, ["Grid power unavailable. Using solar only."])
        else (Some SolarBattery, ["Powering from battery due to grid issue."]) in
      (ps, (a ++ when heavy "Warning: Heavy appliances running on solar backup.")%list)
    else (None, [])
  else
    if is_normal (grid_status r) then (Some Grid, [])
    else if is_degraded (grid_status r) then
      (Some Battery,
       "Switched to battery."
         :: when heavy "Warning: Heavy appliances on battery backup. Consider turning off.")
    else if strict_eq (grid_status r) (JString "power off") then
      (Some Battery,
       "Grid power unavailable. Using battery backup."
         :: when heavy "Warning: High load on battery backup. Turn off heavy devices.")
    else (None, []).

(** The body of the [try] block (lines 120-124) for a string
    [battery_percent]: the value [parsedBatteryPercent] is left with,
    and how the block completes.  [battery_percent] is one of the
    [const] bindings of the destructuring at line 39, so line 123
    throws. *)
Definition parse_block (s : string) : num * completion unit :=
  let parsedBatteryPercent := parseFloat s in
  if Num.ltb parsedBatteryPercent (Fin 1) then
    let parsedBatteryPercent := Num.mul parsedBatteryPercent (Fin 100) in
    (parsedBatteryPercent, assign_const "battery_percent")
  else (parsedBatteryPercent, Normal tt).

(** Lines 117-130: the final [parsedBatteryPercent] ([None] is [null]).
    The [catch] only logs. *)
Definition parse_battery_percent (bp : value) : completion (option num) :=
  match bp with
  | JString s =>
      let '(parsedBatteryPercent, c) := parse_block s in
      bind (try_catch c (fun _ => Normal tt))
           (fun _ => Normal (Some parsedBatteryPercent))
  | JNumber n => Normal (Some n)
  | _ => Normal None
  end.

(** Lines 133-135. *)
Definition low_battery_alert (bp : value) : list string :=
  if op_lt bp (JNumber (Fin 28))
  then ["Battery Low: " ++ Js.to_string bp ++ "%"]
  else [].

(** Step 2 (lines 141-173): which arm of the [if]/[else if] chain is
    taken. *)
Inductive Rule : Type := RuleA | RuleB | RuleC | RuleD | RuleE.

Definition uses_battery (ps : option PowerSource) : bool :=
  match ps with
  | Some Battery | Some SolarBattery => true
  | _ => false
  end.

Definition battery_rule (r : RawRow) (ps : option PowerSource) : Rule :=
  let bp := battery_percent r in
  if uses_battery ps then RuleA
  else if to_boolean (is_daytime r)
          && op_gt (solar_input_watts r) (household_power_demand_watts r)
          && op_lt bp (JNumber (Fin 100)) then RuleB
  else if is_normal (grid_status r) && op_lt bp (JNumber (Fin 100)) then RuleC
  else if is_degraded (grid_status r) && op_gt bp (JNumber (Fin 28)) then RuleD
  else RuleE.

Definition rule_action (k : Rule) : BatteryAction :=
  match k with
  | RuleA | RuleD => Discharging
  | RuleB | RuleC => Charging
  | RuleE => Idle
  end.

Definition is_discharging (a : option BatteryAction) : bool :=
  match a with Some Discharging => true | _ => false end.

(** The counter after the chain: only the first arm touches it
    (lines 145-147). *)
Definition cycles_after (g : Globals) (k : Rule) : Z :=
  match k with
  | RuleA =>
      if is_discharging (lastBatteryAction g)
      then batteryDischargeCycles g
      else batteryDischargeCycles g + 1
  | _ => batteryDischargeCycles g
  end.

(** Step 4 (lines 184-209), unrounded; [Double.contributions] has the
    rounded figures. *)
Definition hourFraction : num := Num.div (Fin 20) (Fin 3600).

Definition totalDemandKwh (r : RawRow) : num :=
  Num.div (Num.mul (to_number (household_power_demand_watts r)) hourFraction) (Fin 1000).

Definition solarKwh (r : RawRow) : num :=
  Num.div (Num.mul (to_number (solar_input_watts r)) hourFraction) (Fin 1000).

(** (solar, grid, battery) *)
Definition contributions (r : RawRow) (ps : option PowerSource) : num * num * num :=
  match ps with
  | Some Solar => (totalDemandKwh r, Fin 0, Fin 0)
  | Some Grid => (Fin 0, totalDemandKwh r, Fin 0)
  | Some SolarGrid => (solarKwh r, Num.sub (totalDemandKwh r) (solarKwh r), Fin 0)
  | Some SolarBattery => (solarKwh r, Fin 0, Num.sub (totalDemandKwh r) (solarKwh r))
  | Some Battery => (Fin 0, Fin 0, totalDemandKwh r)
  | None => (Fin 0, Fin 0, Fin 0)
  end.

(** Step 5 (lines 212-218), unrounded; [Double.backup_time] has the
    rounded figure. *)
Definition backup_time (r : RawRow) : num :=
  let current_load_kW := Num.div (to_number (household_power_demand_watts r)) (Fin 1000) in
  if Num.ltb (Fin 0) current_load_kW then
    Num.div (Num.mul (Num.div (to_number (battery_percent r)) (Fin 100))
                     BATTERY_CAPACITY_KWH)
            current_load_kW
  else Fin 0.

(** Step 3 (line 180), unrounded; [Double.efficiency] has the rounded
    figure. *)
Definition efficiency (cycles : Z) : num :=
  Num.sub (Fin 100) (Num.mul (of_Z cycles) (Fin (2 # 10))).

Definition processRowData (g : Globals) (rowData : RawRow)
  : completion (ProcessedRow * Globals) :=
  let '(power_source, alerts1) := classify_power_source rowData in
  bind (parse_battery_percent (battery_percent rowData)) (fun parsedBatteryPercent =>
  let alerts := (alerts1 ++ low_battery_alert (battery_percent rowData))%list in
  let rule := battery_rule rowData power_source in
  let battery_action := rule_action rule in
  let g' := {| currentRowIndex := currentRowIndex g;
               batteryDischargeCycles := cycles_after g rule;
               lastBatteryAction := Some battery_action |} in
  let '(solar_c, grid_c, battery_c) := contributions rowData power_source in
  Normal
    ({| raw := rowData;
        power_source := power_source;
        battery_action := battery_action;
        battery_efficiency := efficiency (batteryDischargeCycles g');
        solar_contribution := solar_c;
        grid_contribution := grid_c;
        battery_contribution := battery_c;
        total_consumption_kwh := totalDemandKwh rowData;
        estimated_battery_backup_time := backup_time rowData;
        alerts := String.concat ", " alerts;
        discharge_cycles := batteryDischargeCycles g' |},
     g')).

(** Rows fed to the classifier one after the other, as successive
    [/api/data/next] requests do. *)
Fixpoint process_rows (g : Globals) (rows : list RawRow)
  : completion (list ProcessedRow * Globals) :=
  match rows with
  | [] => Normal ([], g)
  | r :: rows' =>
      bind (processRowData g r) (fun '(p, g1) =>
      bind (process_rows g1 rows') (fun '(ps, g2) =>
      Normal (p :: ps, g2)))
  end.

End Classifier.

Import Classifier.

Definition num_value (q : Q) : value := JNumber (Fin q).

(** A row with the columns that matter filled in. *)
Definition mk_row (day : bool) (grid : string) (solar demand : Q) (heavy : bool)
    (bp : value) : RawRow :=
  {| timestamp := JString "2024-01-01 00:00:00";
     is_daytime := JBool day;
     solar_input_watts := num_value solar;
     grid_status := JString grid;
     household_power_demand_watts := num_value demand;
     heavy_appliance_active := JBool heavy;
     ambient_temperature_celsius := num_value 25;
     weather_condition := JString "Sunny";
     battery_percent := bp |}.

(** ** The arithmetic of [processRowData] in double precision

    JavaScript numbers are IEEE-754 binary64 values, and so are Rocq's
    primitive floats, with the same round-to-nearest-even operations.
    This module has the three arithmetic steps of [processRowData] on
    them, operation by operation as the source writes them. *)

Module Double.

Import Floats Uint63.
Local Open Scope float_scope.
#[local] Set Warnings "-inexact-float".

(** A whole number as a JavaScript number (exact up to 2^53 in
    magnitude, which covers the counter and whole-watt readings). *)
Definition of_Z (z : Z) : float :=
  if (z <? 0)%Z then - of_uint63 (Uint63.of_Z (- z)) else of_uint63 (Uint63.of_Z z).

(** Step 3 (line 180): [100 - batteryDischargeCycles * 0.2], for the
    double [n] the counter is. *)
Definition efficiency_at (n : float) : float := 100 - n * 0.2.

Definition efficiency (cycles : Z) : float := efficiency_at (of_Z cycles).

(** The [battery_efficiency] of an annotated row: line 180 reads the
    counter that line 232 stores in [discharge_cycles]. *)
Definition battery_efficiency (p : ProcessedRow) : float :=
  efficiency (discharge_cycles p).

(** Step 4 (lines 184-209), for the numbers [solar] and [demand] that
    [solar_input_watts] and [household_power_demand_watts] convert to. *)
Definition hourFraction : float := 20 / 3600.

Definition totalDemandKwh (demand : float) : float := (demand * hourFraction) / 1000.

Definition solarKwh (solar : float) : float := (solar * hourFraction) / 1000.

(** (solar, grid, battery) *)
Definition contributions (solar demand : float) (ps : option PowerSource)
  : float * float * float :=
  match ps with
  | Some Solar => (totalDemandKwh demand, 0, 0)
  | Some Grid => (0, totalDemandKwh demand, 0)
  | Some SolarGrid => (solarKwh solar, totalDemandKwh demand - solarKwh solar, 0)
  | Some SolarBattery => (solarKwh solar, 0, totalDemandKwh demand - solarKwh solar)
  | Some Battery => (0, 0, totalDemandKwh demand)
  | None => (0, 0, 0)
  end.


(** Step 5 (lines 212-218), for the numbers [battery] and [demand] that
    [battery_percent] and [household_power_demand_watts] convert to;
    [BATTERY_CAPACITY_KWH] is 10. *)
Definition backup_time (battery demand : float) : float :=
  let current_load_kW := demand / 1000 in
  if 0 <? current_load_kW then ((battery / 100) * 10) / current_load_kW else 0.

(** *** Reading doubles *)

(** The rational number a finite double is. *)
Definition exact (x : float) : option Q :=
  match Prim2SF x with
  | S754_zero _ => Some 0%Q
  | S754_finite s m e =>
      let n := if s then Zneg m else Zpos m in
      Some (match e with
            | Zneg k => Qmake n (Pos.shiftl 1 (Npos k))
            | _ => inject_Z (n * 2 ^ e)
            end)
  | _ => None
  end.




(** *** Tables

    What is said below of a range of whole numbers is computed, value by
    value, on machine integers. *)







End Double.

(** ** The replay session: the request handlers and the file store *)

Module Session.

(** A row of a stored sheet: as uploaded, or rewritten by
    [appendProcessedData] with the derived columns. *)
Inductive SheetRow : Type :=
| Unprocessed (r : RawRow)
| Annotated (p : ProcessedRow).

(** The nine raw columns of a stored row, which is all that
    [processRowData] reads from it. *)
Definition cells (x : SheetRow) : RawRow :=
  match x with
  | Unprocessed r => r
  | Annotated p => raw p
  end.

(** The process state: the module-level variables and the [uploads]
    directory, from path to parsed first sheet. *)
Record Server : Type := {
  globals : Globals;
  disk : gmap string (list SheetRow)
}.

(** [loadExcelData]: a file that cannot be read yields no rows. *)
Definition loadExcelData (d : gmap string (list SheetRow)) (filePath : string)
  : list SheetRow :=
  default [] (d !! filePath).

(** [{...row, ...processedData}] on one column: an absent cell in the
    second object leaves the first one's in place. *)
Definition spread_cell (old new : value) : value :=
  match new with
  | JUndefined => old
  | _ => new
  end.

Definition spread_raw (row over : RawRow) : RawRow :=
  {| timestamp := spread_cell (timestamp row) (timestamp over);
     is_daytime := spread_cell (is_daytime row) (is_daytime over);
     solar_input_watts := spread_cell (solar_input_watts row) (solar_input_watts over);
     grid_status := spread_cell (grid_status row) (grid_status over);
     household_power_demand_watts :=
       spread_cell (household_power_demand_watts row) (household_power_demand_watts over);
     heavy_appliance_active :=
       spread_cell (heavy_appliance_active row) (heavy_appliance_active over);
     ambient_temperature_celsius :=
       spread_cell (ambient_temperature_celsius row) (ambient_temperature_celsius over);
     weather_condition := spread_cell (weather_condition row) (weather_condition over);
     battery_percent := spread_cell (battery_percent row) (battery_percent over) |}.

Definition spread (row : SheetRow) (processedData : ProcessedRow) : SheetRow :=
  Annotated
    {| raw := spread_raw (cells row) (raw processedData);
       power_source := power_source processedData;
       battery_action := battery_action processedData;
       battery_efficiency := battery_efficiency processedData;
       solar_contribution := solar_contribution processedData;
       grid_contribution := grid_contribution processedData;
       battery_contribution := battery_contribution processedData;
       total_consumption_kwh := total_consumption_kwh processedData;
       estimated_battery_backup_time := estimated_battery_backup_time processedData;
       alerts := alerts processedData;
       discharge_cycles := discharge_cycles processedData |}.

(** [appendProcessedData] (lines 239-267).  It runs before
    [currentRowIndex++], and rewrites the row at [currentRowIndex - 1]. *)
Definition appendProcessedData (g : Globals) (d : gmap string (list SheetRow))
    (filePath : string) (processedData : ProcessedRow) : gmap string (list SheetRow) :=
  match d !! filePath with
  | Some data =>
      let updatedData :=
        imap (fun index row =>
                if Z.of_nat index =? Z.of_nat (currentRowIndex g) - 1
                then spread row processedData
                else row) data in
      <[filePath := updatedData]> d
  | None => d
  end.

Record UploadedFile : Type := {
  name : string;
  content : list SheetRow
}.

Inductive UploadResponse : Type :=
| BadRequest                       (* 400 "No file uploaded" *)
| MoveFailed                       (* 500 *)
| Uploaded (filePath : string).

(** [POST /api/uploads] (lines 270-303); [mv_ok] is whether [file.mv]
    succeeds. *)
Definition upload (file : option UploadedFile) (mv_ok : bool) (s : Server)
  : UploadResponse * Server :=
  match file with
  | None => (BadRequest, s)
  | Some f =>
      let uploadPath := "uploads/" ++ name f in
      if mv_ok then
        (Uploaded uploadPath,
         {| globals :=
              {| currentRowIndex := 0;
                 batteryDischargeCycles := 0;
                 lastBatteryAction := lastBatteryAction (globals s) |};
            disk := <[uploadPath := content f]> (disk s) |})
      else (MoveFailed, s)
  end.

Inductive NextResponse : Type :=
| NotFound                         (* 404 "File not found" *)
| Done                             (* { done: true } *)
| Data (p : ProcessedRow)          (* { done: false, data } *)
| Failed (e : error).              (* an exception escaping the handler *)

(** [GET /api/data/next] (lines 305-333). *)
Definition next (filePath : option string) (s : Server) : NextResponse * Server :=
  match filePath with
  | None => (NotFound, s)
  | Some path =>
      if String.eqb path "" then (NotFound, s)
      else
        match disk s !! path with
        | None => (NotFound, s)
        | Some _ =>
            let data := loadExcelData (disk s) path in
            if (length data <=? currentRowIndex (globals s))%nat then (Done, s)
            else
              match data !! currentRowIndex (globals s) with
              | None => (Failed (TypeError "Cannot destructure 'undefined'."), s)
              | Some rawRow =>
                  match processRowData (globals s) (cells rawRow) with
                  | Throw e => (Failed e, s)
                  | Normal (processedRow, g1) =>
                      let d := appendProcessedData g1 (disk s) path processedRow in
                      (Data processedRow,
                       {| globals :=
                            {| currentRowIndex := S (currentRowIndex g1);
                               batteryDischargeCycles := batteryDischargeCycles g1;
                               lastBatteryAction := lastBatteryAction g1 |};
                          disk := d |})
                  end
              end
        end
  end.

Record Summary : Type := {
  total_rows : nat;
  current_row : nat;
  battery_discharge_cycles : Z
}.

(** [GET /api/data/summary] (lines 355-373); [None] is the 404. *)
Definition summary (filePath : option string) (s : Server) : option Summary :=
  match filePath with
  | None => None
  | Some path =>
      if String.eqb path "" then None
      else
        match disk s !! path with
        | None => None
        | Some _ =>
            let data := loadExcelData (disk s) path in
            Some {| total_rows := length data;
                    current_row := Nat.min (currentRowIndex (globals s)) (length data);
                    battery_discharge_cycles := batteryDischargeCycles (globals s) |}
        end
  end.

(** [k] successive [next] requests for the same file. *)
Fixpoint advance (k : nat) (filePath : option string) (s : Server)
  : list NextResponse * Server :=
  match k with
  | O => ([], s)
  | S k' =>
      let '(r, s1) := next filePath s in
      let '(rs, s2) := advance k' filePath s1 in
      (r :: rs, s2)
  end.

Definition boot : Server := {| globals := initial_globals; disk := ∅ |}.

End Session.

Import Session.

(** ** Vocabulary of the properties *)

Module Props.

(** [needle] occurs somewhere in [hay]. *)
Fixpoint contains (needle hay : string) : bool :=
  match hay with
  | EmptyString => String.prefix needle hay
  | String _ hay' => String.prefix needle hay || contains needle hay'
  end.

(** A string with nothing but white space in it. *)
Definition is_blank (s : string) : bool :=
  match trim (list_ascii_of_string s) with
  | [] => true
  | _ :: _ => false
  end.

Definition is_some {A} (o : option A) : bool :=
  match o with Some _ => true | None => false end.

Definition is_digit (c : ascii) : bool := is_some (digit_value 10 c).

(** Whether [l] opens with an unsigned decimal literal: [Infinity], a
    digit, or a dot followed by a digit. *)
Definition numeric_head (l : list ascii) : bool :=
  is_some (strip_prefix (list_ascii_of_string "Infinity") l)
  || match l with
     | c :: r =>
         is_digit c
         || (Ascii.eqb c "."
             && match r with c2 :: _ => is_digit c2 | [] => false end)
     | [] => false
     end.

Definition signed_head (l : list ascii) : bool :=
  match l with
  | c :: l' =>
      if Ascii.eqb c "-" then numeric_head l'
      else if Ascii.eqb c "+" then numeric_head l'
      else numeric_head l
  | [] => false
  end.

(** How many maximal runs of [Discharging] start in [acts], when the
    action before the first one was [prev]. *)
Fixpoint discharge_runs (prev : option BatteryAction) (acts : list BatteryAction) : Z :=
  match acts with
  | [] => 0
  | a :: rest =>
      (if is_discharging (Some a) && negb (is_discharging prev) then 1 else 0)
      + discharge_runs (Some a) rest
  end.

(** A numeric column holding a string that the conversion to a number
    turns into NaN: a string that is neither a numeric literal nor
    blank. *)
Definition malformed (v : value) : Prop :=
  exists s, v = JString s /\ string_to_number s = NaN.

(** A numeric column holding a blank string (empty, or white space
    throughout), which the conversion turns into 0. *)
Definition blank (v : value) : Prop :=
  exists s, v = JString s /\ is_blank s = true.

(** A numeric column holding a non-numeric string, of the one kind or the
    other. *)
Definition non_numeric (v : value) : Prop :=
  malformed v \/ blank v.

(** The no-break space U+00A0, as a string. *)
Definition nbsp : string :=
  String (ascii_of_nat 194) (String (ascii_of_nat 160) EmptyString).

(** A classification outcome tells its caller about [field]: the
    exception it ends in, or one of its alerts, names it. *)
Definition reports_field (field : string) (c : completion (ProcessedRow * Globals))
  : bool :=
  match c with
  | Throw (TypeError msg) => contains field msg
  | Normal (p, _) => contains field (alerts p)
  end.

(** The three components of the session state of the specification. *)
Definition session_state (s : Server) : nat * Z * option BatteryAction :=
  (currentRowIndex (globals s),
   batteryDischargeCycles (globals s),
   lastBatteryAction (globals s)).

(** The rows a dataset hands to the classifier. *)
Definition dataset_rows (data : list SheetRow) : list RawRow := map cells data.

(** The finished rows among a session's responses. *)
Definition delivered (rs : list NextResponse) : list ProcessedRow :=
  omap (fun r => match r with Data p => Some p | _ => None end) rs.

(** The file at [path] still holds, from the cursor on, the rows
    [rows] of the dataset. *)
Definition in_step (path : string) (rows : list RawRow) (s : Server) : Prop :=
  exists data, disk s !! path = Some data
    /\ length data = length rows
    /\ drop (currentRowIndex (globals s)) (map cells data)
       = drop (currentRowIndex (globals s)) rows.


End Props.

Import Props.

(** ** The dashboard: the functions of [client/src/App.jsx] that read
    what the server sends *)

Module Dashboard.

(** The strings [processRowData] assigns to [power_source]
    (lines 68-104 of [server.js]). *)
Definition power_source_name (ps : PowerSource) : string :=
  match ps with
  | Solar => "Solar"
  | Grid => "Grid"
  | SolarGrid => "Solar+Grid"
  | SolarBattery => "Solar+Battery"
  | Battery => "Battery"
  end.

(** [res.json] on a number: NaN and the infinities are sent as [null]. *)
Definition json_number (n : num) : value :=
  match n with
  | Fin _ => JNumber n
  | _ => JNull
  end.

(** [res.json] on a cell. *)
Definition json_cell (v : value) : value :=
  match v with
  | JNumber n => json_number n
  | _ => v
  end.

(** The [power_source] property as the client reads it; an [undefined]
    property is not sent. *)
Definition sent_power_source (p : ProcessedRow) : value :=
  match power_source p with
  | Some ps => JString (power_source_name ps)
  | None => JUndefined
  end.

(** [getPowerSourceColor] (App.jsx lines 237-252). *)
Definition getPowerSourceColor (source : value) : string :=
  if strict_eq source (JString "Solar") then "bg-yellow-500"
  else if strict_eq source (JString "Grid") then "bg-blue-500"
  else if strict_eq source (JString "Solar+Grid") then "bg-green-500"
  else if strict_eq source (JString "Battery") then "bg-purple-500"
  else if strict_eq source (JString "Battery+Solar") then "bg-pink-500"
  else "bg-red-500".

(** [getGridStatusColor] (App.jsx lines 255-266). *)
Definition getGridStatusColor (status : value) : string :=
  if strict_eq status (JString "normal") then "bg-green-500"
  else if strict_eq status (JString "voltage_fluctuation") then "bg-yellow-500"
  else if strict_eq status (JString "power_off") then "bg-red-500"
  else "bg-gray-500".

(** The class of the battery bar (App.jsx lines 556-563). *)
Definition battery_level_class (battery_percent : value) : string :=
  if op_lt battery_percent (JNumber (Fin 20)) then "bg-red-100"
  else if op_lt battery_percent (JNumber (Fin 50)) then "bg-yellow-100"
  else "bg-green-100".


(** [s.split(", ")]: [cur] holds, reversed, the piece being read. *)
Fixpoint split_comma_space (cur : list ascii) (l : list ascii) : list string :=
  match l with
  | [] => [string_of_list_ascii (rev cur)]
  | c1 :: l1 =>
      match l1 with
      | c2 :: l2 =>
          if Ascii.eqb c1 "," && Ascii.eqb c2 " "
          then string_of_list_ascii (rev cur) :: split_comma_space [] l2
          else split_comma_space (c1 :: cur) l1
      | [] => split_comma_space (c1 :: cur) l1
      end
  end.

Definition split (s : string) : list string :=
  split_comma_space [] (list_ascii_of_string s).

Definition nonempty (s : string) : bool := negb (String.eqb s "").

(** The [alertArray] of [fetchNextRow] (App.jsx lines 150-156) for the
    string the server sends; a row without alerts gets none. *)
Definition alertArray (alerts : string) : list string :=
  if nonempty alerts then filter (fun a => nonempty a = true) (split alerts) else [].

(** The update of [alertMessages] (App.jsx lines 158-166): an entry with
    the row's timestamp, when there is something to show. *)
Definition add_alert_messages (prev : list (value * list string)) (newData : ProcessedRow)
  : list (value * list string) :=
  match alertArray (alerts newData) with
  | [] => prev
  | a => (prev ++ [(json_cell (timestamp (raw newData)), a)])%list
  end.

End Dashboard.

Import Dashboard.

(** ** Vocabulary of the further properties *)

Module Derived.

(** The alerts [processRowData] pushes for a row, before they are
    joined. *)
Definition pushed_alerts (r : RawRow) : list string :=
  (snd (classify_power_source r) ++ low_battery_alert (battery_percent r))%list.

(** The rows of [ps] on which [power_source] is Battery or Solar+Battery
    while the action before was not Discharging; [prev] is the action
    before the first row. *)
Fixpoint battery_starts (prev : option BatteryAction) (ps : list ProcessedRow) : Z :=
  match ps with
  | [] => 0
  | p :: rest =>
      (if uses_battery (power_source p) && negb (is_discharging prev) then 1 else 0)
      + battery_starts (Some (battery_action p)) rest
  end.

(** The sheet that holds [content] after the rows [ps] were delivered:
    row [j] carries what was derived for row [j + 1]. *)
Definition stored_after (content : list SheetRow) (ps : list ProcessedRow)
  : list SheetRow :=
  imap (fun j row => match ps !! S j with Some p => spread row p | None => row end)
       content.

(** Every one of the nine columns has a cell. *)
Definition fully_populated (r : RawRow) : Prop :=
  timestamp r <> JUndefined
  /\ is_daytime r <> JUndefined
  /\ solar_input_watts r <> JUndefined
  /\ grid_status r <> JUndefined
  /\ household_power_demand_watts r <> JUndefined
  /\ heavy_appliance_active r <> JUndefined
  /\ ambient_temperature_celsius r <> JUndefined
  /\ weather_condition r <> JUndefined
  /\ battery_percent r <> JUndefined.

Definition comma_free (l : list ascii) : Prop :=
  Forall (fun c => c <> ","%char) l.

Definition no_comma (s : string) : Prop :=
  comma_free (list_ascii_of_string s).

(** An alert that survives the dashboard's [split] and [filter]. *)
Definition plain_alert (a : string) : Prop :=
  no_comma a /\ nonempty a = true.

End Derived.

Import Derived.

(** ** Sanity checks of the coercions *)

Example num_print_1 : Num.to_string (Fin (15 # 100)) = "0.15".
Proof. reflexivity. Qed.
Example num_print_2 : Num.to_string (Fin (-(55 # 2))) = "-27.5".
Proof. reflexivity. Qed.
Example num_print_3 : Num.to_string (Fin 0) = "0".
Proof. reflexivity. Qed.
Example parseFloat_fraction : parseFloat "0.15" = Fin (3 # 20).
Proof. reflexivity. Qed.
Example parseFloat_prefix : parseFloat "  12.5kW" = Fin (25 # 2).
Proof. reflexivity. Qed.
Example parseFloat_exp : parseFloat "-1.5e2" = Fin (-150 # 1).
Proof. reflexivity. Qed.
Example parseFloat_word : parseFloat "n/a" = NaN.
Proof. reflexivity. Qed.
Example parseFloat_blank : parseFloat " " = NaN.
Proof. reflexivity. Qed.
Example to_number_blank : to_number (JString " ") = Fin 0.
Proof. reflexivity. Qed.
Example to_number_nbsp : to_number (JString nbsp) = Fin 0.
Proof. reflexivity. Qed.
Example parseFloat_nbsp : parseFloat (nbsp ++ "12") = Fin 12.
Proof. reflexivity. Qed.
Example to_number_padded : to_number (JString (nbsp ++ " 12 " ++ nbsp)) = Fin 12.
Proof. reflexivity. Qed.
Example blank_nbsp : is_blank (nbsp ++ " ") = true.
Proof. reflexivity. Qed.
Example to_number_hex : to_number (JString "0x10") = Fin 16.
Proof. reflexivity. Qed.
Example to_number_trailing : to_number (JString "12.5kW") = NaN.
Proof. reflexivity. Qed.
Example to_number_dot : to_number (JString "5.") = Fin 5.
Proof. reflexivity. Qed.
Example solar_covers_demand :
  exists p g, processRowData initial_globals
                (mk_row true "normal" 3000 2000 false (num_value 80)) = Normal (p, g)
    /\ power_source p = Some Solar
    /\ solar_contribution p = total_consumption_kwh p
    /\ grid_contribution p = Fin 0
    /\ total_consumption_kwh p = Fin (1 # 90)
    /\ battery_action p = Charging.
Proof. eexists _, _. split; [reflexivity|]. cbn. repeat split; reflexivity. Qed.

(** [appendProcessedData] runs before the cursor moves: the row it
    rewrites is the one before the row just classified, and the first
    advance rewrites nothing. *)
Example append_rewrites_previous_row :
  let r0 := mk_row false "normal" 0 1500 false (num_value 80) in
  let r1 := mk_row true "normal" 3000 2000 false (num_value 80) in
  let s0 := snd (upload (Some {| name := "two.xlsx";
                                 content := [Unprocessed r0; Unprocessed r1] |}) true boot) in
  let s1 := snd (advance 1 (Some "uploads/two.xlsx") s0) in
  let s2 := snd (advance 2 (Some "uploads/two.xlsx") s0) in
  disk s1 !! "uploads/two.xlsx" = Some [Unprocessed r0; Unprocessed r1]
  /\ exists p, disk s2 !! "uploads/two.xlsx" = Some [Annotated p; Unprocessed r1]
       /\ raw p = r1 /\ power_source p = Some Solar.
Proof.
  cbn zeta. split; [vm_compute; reflexivity|].
  eexists. split; [vm_compute; reflexivity|]. split; reflexivity.
Qed.

(** ** The classifier is a total function *)

Lemma parse_battery_percent_normal (bp : value) :
  exists p, parse_battery_percent bp = Normal p.
Proof.
  destruct bp; simpl; eauto.
  unfold parse_block. destruct (Num.ltb _ _); simpl; eauto.
Qed.

(** The only exception the body can raise is the one the [catch] at
    line 125 swallows: the result is always a row, and it is the one the
    steps of the source determine. *)
Lemma processRowData_unfold (g : Globals) (r : RawRow) :
  processRowData g r =
  Normal
    (let ps := fst (classify_power_source r) in
     let rule := battery_rule r ps in
     ({| raw := r;
         power_source := ps;
         battery_action := rule_action rule;
         battery_efficiency := efficiency (cycles_after g rule);
         solar_contribution := fst (fst (contributions r ps));
         grid_contribution := snd (fst (contributions r ps));
         battery_contribution := snd (contributions r ps);
         total_consumption_kwh := totalDemandKwh r;
         estimated_battery_backup_time := backup_time r;
         alerts := String.concat ", "
                     (snd (classify_power_source r) ++ low_battery_alert (battery_percent r));
         discharge_cycles := cycles_after g rule |},
      {| currentRowIndex := currentRowIndex g;
         batteryDischargeCycles := cycles_after g rule;
         lastBatteryAction := Some (rule_action rule) |})).
Proof.
  unfold processRowData.
  destruct (classify_power_source r) as [ps a].
  destruct (parse_battery_percent_normal (battery_percent r)) as [p ->].
  simpl. destruct (contributions r ps) as [[? ?] ?]. reflexivity.
Qed.

Lemma normal_excludes_degraded (g : value) :
  is_normal g = true -> is_degraded g = false.
Proof.
  destruct g; simpl; try discriminate.
  unfold is_normal, is_degraded. simpl.
  intros H%String.eqb_eq. subst. reflexivity.
Qed.

(** ** Power source at night *)

(** With the spellings the server compares against, a night-time row on a
    degraded grid runs on the battery and says so. *)
Lemma night_degraded_battery (g : Globals) (r : RawRow) :
  to_boolean (is_daytime r) = false ->
  is_degraded (grid_status r) = true ->
  exists p g', processRowData g r = Normal (p, g')
    /\ power_source p = Some Battery
    /\ battery_action p = Discharging
    /\ alerts p =
         String.concat ", "
           (("Switched to battery."
              :: when (heavy_appliance_active r)
                   "Warning: Heavy appliances on battery backup. Consider turning off.")
            ++ low_battery_alert (battery_percent r))
    /\ batteryDischargeCycles g' =
         (if is_discharging (lastBatteryAction g)
          then batteryDischargeCycles g else batteryDischargeCycles g + 1).
Proof.
  intros Hnight Hdeg. rewrite processRowData_unfold. eexists _, _. split; [reflexivity|].
  assert (Hn : is_normal (grid_status r) = false).
  { destruct (is_normal (grid_status r)) eqn:E; [|reflexivity].
    apply normal_excludes_degraded in E. congruence. }
  cbn -[String.concat low_battery_alert]. unfold classify_power_source.
  rewrite Hnight, Hn, Hdeg. cbn -[String.concat low_battery_alert].
  repeat split; reflexivity.
Qed.

(** C1 (as the code behaves): the grid states of the data model are spelt
    [power_off] and [voltage_fluctuation]; the server compares against
    ["power off"] and ["voltage fluctuation"].  A night-time row with
    either data-model spelling, battery at 50 and a heavy appliance on, is
    left without a power source: no alert, battery idle, counter
    untouched.  The same row with the server's spelling is classified as
    the claim says. *)
Theorem C1_underscore_status_unclassified (g : Globals) :
  (exists p g',
     processRowData g (mk_row false "power_off" 0 1500 true (num_value 50)) = Normal (p, g')
     /\ power_source p = None
     /\ battery_action p = Idle
     /\ alerts p = ""
     /\ batteryDischargeCycles g' = batteryDischargeCycles g)
  /\ (exists p g',
     processRowData g (mk_row false "voltage_fluctuation" 0 1500 true (num_value 50))
       = Normal (p, g')
     /\ power_source p = None
     /\ battery_action p = Idle
     /\ alerts p = ""
     /\ batteryDischargeCycles g' = batteryDischargeCycles g)
  /\ (exists p g',
     processRowData g (mk_row false "power off" 0 1500 true (num_value 50)) = Normal (p, g')
     /\ power_source p = Some Battery
     /\ battery_action p = Discharging
     /\ alerts p = "Switched to battery., Warning: Heavy appliances on battery backup. Consider turning off.").
Proof.
  repeat apply conj; rewrite processRowData_unfold; eexists _, _;
    (split; [reflexivity|]); cbn; repeat split; reflexivity.
Qed.

(** ** Battery-percent normalisation *)

(** C2 (as the code behaves): a battery level given as the fraction 0.15
    is never turned into 15.  For a number the code does not try; for a
    string the scaled value is computed, but storing it into the [const]
    [battery_percent] throws and the [catch] discards the attempt.  Either
    way the alert reports 0.15 and the backup time is computed from 0.15
    (0.01 h instead of the 1 h a 15 % battery gives); a half-full battery
    given as 0.5 raises the low-battery alert that 50 does not. *)
Theorem C2_fraction_not_normalized (g : Globals) :
  parse_block "0.15" = (Fin 15, Throw (TypeError "Assignment to constant variable."))
  /\ (exists p g',
        processRowData g (mk_row false "normal" 0 1500 false (JString "0.15")) = Normal (p, g')
        /\ alerts p = "Battery Low: 0.15%"
        /\ estimated_battery_backup_time p = Fin (1 # 100))
  /\ (exists p g',
        processRowData g (mk_row false "normal" 0 1500 false (num_value (15 # 100))) = Normal (p, g')
        /\ alerts p = "Battery Low: 0.15%"
        /\ estimated_battery_backup_time p = Fin (1 # 100))
  /\ (exists p g',
        processRowData g (mk_row false "normal" 0 1500 false (num_value 15)) = Normal (p, g')
        /\ alerts p = "Battery Low: 15%"
        /\ estimated_battery_backup_time p = Fin 1)
  /\ (exists p g',
        processRowData g (mk_row false "normal" 0 1500 false (num_value (1 # 2))) = Normal (p, g')
        /\ alerts p = "Battery Low: 0.5%")
  /\ (exists p g',
        processRowData g (mk_row false "normal" 0 1500 false (num_value 50)) = Normal (p, g')
        /\ alerts p = "").
Proof.
  split; [reflexivity|].
  repeat split; rewrite processRowData_unfold; eexists _, _;
    (split; [reflexivity|]); cbn; repeat split; reflexivity.
Qed.

(** ** The battery-action chain *)

(** C4 (counterexample): a daytime row on a grid that is off, with solar
    above demand and a full battery, passes arms (a), (b) and (c) and is
    decided by arm (d). *)
Lemma C4_rule_d_fires :
  let r := mk_row true "power off" 3000 2000 false (num_value 100) in
  fst (classify_power_source r) = Some Solar
  /\ (is_degraded (grid_status r) && op_gt (battery_percent r) (JNumber (Fin 28))) = true
  /\ battery_rule r (fst (classify_power_source r)) = RuleD
  /\ exists p g', processRowData initial_globals r = Normal (p, g')
       /\ battery_action p = Discharging.
Proof.
  cbn. repeat split. rewrite processRowData_unfold. eexists _, _.
  split; reflexivity.
Qed.

(** C4 (amended): arm (d) decides a row exactly when it is daytime, the
    grid is degraded, solar covers the demand (so the power source is
    Solar, not a battery one), arm (b) does not apply (solar not strictly
    above demand, or battery not below 100) and the battery is above 28.
    It never decides a night-time row, a row on a normal grid or a row
    left without a power source. *)
Theorem C4_rule_d_reachability (r : RawRow) :
  battery_rule r (fst (classify_power_source r)) = RuleD
  <->
  to_boolean (is_daytime r) = true
  /\ is_degraded (grid_status r) = true
  /\ fst (classify_power_source r) = Some Solar
  /\ (op_gt (solar_input_watts r) (household_power_demand_watts r)
      && op_lt (battery_percent r) (JNumber (Fin 100))) = false
  /\ op_gt (battery_percent r) (JNumber (Fin 28)) = true.
Proof.
  unfold battery_rule, classify_power_source.
  pose proof (normal_excludes_degraded (grid_status r)) as Hex.
  destruct (to_boolean (is_daytime r)) eqn:Hday;
    destruct (is_normal (grid_status r)) eqn:Hn;
    destruct (is_degraded (grid_status r)) eqn:Hdeg;
    try (specialize (Hex eq_refl); discriminate);
    destruct (op_ge (solar_input_watts r) (household_power_demand_watts r)) eqn:Hge;
    destruct (op_gt (solar_input_watts r) (household_power_demand_watts r)) eqn:Hgt;
    destruct (op_lt (battery_percent r) (JNumber (Fin 100))) eqn:Hlt;
    destruct (op_gt (battery_percent r) (JNumber (Fin 28))) eqn:Hbig;
    destruct (strict_eq (grid_status r) (JString "power off")) eqn:Hoff;
    cbn; try rewrite Hdeg; cbn;
    (split; [intros H; try discriminate H; repeat split; congruence
            | intros (? & ? & ? & ? & ?); try discriminate; try congruence ]).
Qed.

Lemma C4_rule_d_reachability_witness :
  let r := mk_row true "power off" 2000 2000 false (num_value 60) in
  battery_rule r (fst (classify_power_source r)) = RuleD.
Proof.
  intros r. apply (C4_rule_d_reachability r). cbn. repeat split.
Defined.

(** ** The discharge-cycle counter *)

Lemma cycles_after_bounds (g : Globals) (k : Rule) :
  batteryDischargeCycles g <= cycles_after g k <= batteryDischargeCycles g + 1.
Proof.
  destruct k; simpl; try lia.
  destruct (is_discharging (lastBatteryAction g)); lia.
Qed.

(** Arm (a) is the only one that counts, and it counts a start exactly
    once. *)
Lemma cycles_after_rule_a (g : Globals) (k : Rule) :
  cycles_after g k =
  batteryDischargeCycles g
  + (match k with
     | RuleA => if is_discharging (lastBatteryAction g) then 0 else 1
     | _ => 0
     end).
Proof.
  destruct k; simpl; try lia.
  destruct (is_discharging (lastBatteryAction g)); lia.
Qed.

Lemma processRowData_counter (g : Globals) (r : RawRow) :
  exists p g', processRowData g r = Normal (p, g')
    /\ discharge_cycles p = batteryDischargeCycles g'
    /\ batteryDischargeCycles g <= batteryDischargeCycles g' <= batteryDischargeCycles g + 1
    /\ lastBatteryAction g' = Some (battery_action p)
    /\ currentRowIndex g' = currentRowIndex g.
Proof.
  rewrite processRowData_unfold. eexists _, _. split; [reflexivity|].
  cbn. repeat split; apply cycles_after_bounds.
Qed.

(** C3 (as the code behaves): in a fresh session whose only row is a
    daytime row with the grid off, solar above demand and a full battery,
    the row's action is Discharging (by arm (d)) while the previous action
    is none, so one run of Discharging starts there; the counter stays
    at 0. *)
Theorem C3_rule_d_run_not_counted :
  let r := mk_row true "power off" 3000 2000 false (num_value 100) in
  let s0 := snd (upload (Some {| name := "day.xlsx"; content := [Unprocessed r] |}) true boot) in
  exists p s1,
    advance 1 (Some "uploads/day.xlsx") s0 = ([Data p], s1)
    /\ lastBatteryAction (globals s0) = None
    /\ battery_action p = Discharging
    /\ discharge_runs (lastBatteryAction (globals s0)) [battery_action p] = 1
    /\ discharge_cycles p = 0
    /\ batteryDischargeCycles (globals s1) = 0.
Proof.
  eexists _, _. split; [vm_compute; reflexivity|]. cbn. repeat split.
Qed.

(** ** The session replays the dataset through the classifier *)

Lemma process_rows_total (rows : list RawRow) (g : Globals) :
  exists ps g', process_rows g rows = Normal (ps, g')
    /\ length ps = length rows
    /\ currentRowIndex g' = currentRowIndex g.
Proof.
  revert g. induction rows as [|r rows IH]; intros g; simpl.
  - eexists _, _. repeat split.
  - destruct (processRowData_counter g r) as (p & g1 & -> & _ & _ & _ & Hc).
    simpl. destruct (IH g1) as (ps & g2 & -> & Hlen & Hc2). simpl.
    eexists _, _. split; [reflexivity|]. simpl. split; congruence.
Qed.

(** The classifier reads the counter and the last action, never the
    cursor. *)
Lemma processRowData_same_battery (g1 g2 : Globals) (r : RawRow) (p : ProcessedRow)
    (g1' : Globals) :
  batteryDischargeCycles g1 = batteryDischargeCycles g2 ->
  lastBatteryAction g1 = lastBatteryAction g2 ->
  processRowData g1 r = Normal (p, g1') ->
  exists g2', processRowData g2 r = Normal (p, g2')
    /\ batteryDischargeCycles g1' = batteryDischargeCycles g2'
    /\ lastBatteryAction g1' = lastBatteryAction g2'.
Proof.
  intros Hy Ha. rewrite !processRowData_unfold. cbn zeta. intros [= <- <-].
  assert (Hc : forall k, cycles_after g1 k = cycles_after g2 k).
  { intros k. rewrite !cycles_after_rule_a, Hy, Ha. reflexivity. }
  eexists. rewrite !Hc. split; [reflexivity|]. simpl. auto.
Qed.

Lemma process_rows_same_battery (rows : list RawRow) (g1 g2 : Globals)
    (ps : list ProcessedRow) (g1' : Globals) :
  batteryDischargeCycles g1 = batteryDischargeCycles g2 ->
  lastBatteryAction g1 = lastBatteryAction g2 ->
  process_rows g1 rows = Normal (ps, g1') ->
  exists g2', process_rows g2 rows = Normal (ps, g2')
    /\ batteryDischargeCycles g1' = batteryDischargeCycles g2'
    /\ lastBatteryAction g1' = lastBatteryAction g2'.
Proof.
  revert g1 g2 ps g1'. induction rows as [|r rows IH]; intros g1 g2 ps g1' Hy Ha; simpl.
  - intros [= <- <-]. eexists. split; [reflexivity|]. auto.
  - destruct (processRowData_counter g1 r) as (p & h1 & Hp & _).
    destruct (processRowData_same_battery g1 g2 r p h1 Hy Ha Hp) as (h2 & Hp2 & Hy' & Ha').
    rewrite Hp, Hp2. simpl.
    destruct (process_rows_total rows h1) as (qs & k1 & Hq & _).
    destruct (IH h1 h2 qs k1 Hy' Ha' Hq) as (k2 & Hq2 & Hy'' & Ha'').
    rewrite Hq, Hq2. simpl. intros [= <- <-]. eexists. split; [reflexivity|]. auto.
Qed.

(** The rewrite of [appendProcessedData] keeps the number of rows and
    touches no row at or after the cursor. *)
Lemma rewrite_keeps_tail (c : nat) (p : ProcessedRow) (data : list SheetRow) :
  let updated :=
    imap (fun index row =>
            if Z.of_nat index =? Z.of_nat c - 1 then spread row p else row) data in
  length updated = length data
  /\ drop c (map cells updated) = drop c (map cells data).
Proof.
  cbn. split; [apply length_imap|].
  apply list_eq. intros i.
  rewrite !lookup_drop, !list_lookup_fmap, list_lookup_imap.
  destruct (data !! (c + i)%nat) as [row|]; simpl; [|reflexivity].
  destruct (Z.eqb_spec (Z.of_nat (c + i)) (Z.of_nat c - 1)); [lia|reflexivity].
Qed.

Section Replay.

Variable path : string.
Hypothesis path_nonempty : String.eqb path "" = false.

Lemma next_exhausted (rows : list RawRow) (s : Server) :
  in_step path rows s ->
  (length rows <= currentRowIndex (globals s))%nat ->
  next (Some path) s = (Done, s).
Proof.
  intros (data & Hd & Hlen & _) Hc. unfold next, loadExcelData.
  rewrite path_nonempty, Hd. simpl.
  destruct (Nat.leb_spec (length data) (currentRowIndex (globals s))); [reflexivity|lia].
Qed.

Lemma next_row (rows : list RawRow) (s : Server) (r : RawRow) :
  in_step path rows s ->
  rows !! currentRowIndex (globals s) = Some r ->
  exists p g1 s1,
    processRowData (globals s) r = Normal (p, g1)
    /\ next (Some path) s = (Data p, s1)
    /\ session_state s1
       = (S (currentRowIndex (globals s)), batteryDischargeCycles g1, lastBatteryAction g1)
    /\ in_step path rows s1.
Proof.
  intros (data & Hd & Hlen & Htail) Hr.
  pose proof (lookup_lt_Some _ _ _ Hr) as Hlt.
  assert (Hcell : map cells data !! currentRowIndex (globals s) = Some r).
  { pose proof (f_equal (fun l => l !! 0%nat) Htail) as H0. cbn beta in H0.
    rewrite !lookup_drop, !Nat.add_0_r in H0. congruence. }
  rewrite list_lookup_fmap in Hcell.
  destruct (data !! currentRowIndex (globals s)) as [row|] eqn:Hrow; [|discriminate].
  simpl in Hcell. injection Hcell as Hcell.
  destruct (processRowData_counter (globals s) r) as (p & g1 & Hp & _ & _ & _ & Hidx).
  unfold next, loadExcelData. rewrite path_nonempty, Hd. simpl.
  destruct (Nat.leb_spec (length data) (currentRowIndex (globals s))); [lia|].
  rewrite Hrow, Hcell, Hp.
  eexists p, g1, _. split; [reflexivity|]. split; [reflexivity|].
  split; [unfold session_state; simpl; congruence|].
  unfold in_step, appendProcessedData. rewrite Hd. simpl.
  rewrite lookup_insert_eq. eexists. split; [reflexivity|].
  destruct (rewrite_keeps_tail (currentRowIndex g1) p data) as [Hl Ht].
  split; [congruence|].
  rewrite Hidx in *.
  apply (f_equal (drop 1)) in Ht. rewrite !drop_drop in Ht.
  apply (f_equal (drop 1)) in Htail. rewrite !drop_drop in Htail.
  replace (S (currentRowIndex (globals s))) with (currentRowIndex (globals s) + 1)%nat by lia.
  congruence.
Qed.

(** [k] requests deliver the next [k] rows of the dataset, classified
    in order from the current globals, then report "done". *)
Lemma advance_replays (rows : list RawRow) (k : nat) (s : Server) :
  in_step path rows s ->
  exists ps g' s',
    process_rows (globals s) (take k (drop (currentRowIndex (globals s)) rows))
      = Normal (ps, g')
    /\ advance k (Some path) s = ((map Data ps ++ replicate (k - length ps) Done)%list, s')
    /\ session_state s'
       = (Nat.min (currentRowIndex (globals s) + k)
                  (Nat.max (currentRowIndex (globals s)) (length rows)),
          batteryDischargeCycles g', lastBatteryAction g')
    /\ in_step path rows s'.
Proof.
  revert s. induction k as [|k IH]; intros s Hs.
  - rewrite take_0. simpl. eexists _, _, _. repeat split; try reflexivity; [|exact Hs].
    unfold session_state. f_equal. f_equal. lia.
  - destruct (rows !! currentRowIndex (globals s)) as [r|] eqn:Hr.
    + pose proof (lookup_lt_Some _ _ _ Hr) as Hlt.
      destruct (next_row rows s r Hs Hr) as (p & g1 & s1 & Hp & Hn & Hst & Hs1).
      injection Hst as Hc1 Hy1 Ha1.
      destruct (IH s1 Hs1) as (ps & g' & s' & Hps & Hadv & Hst' & Hs').
      rewrite Hc1 in Hps, Hst'.
      destruct (process_rows_same_battery
                  (take k (drop (S (currentRowIndex (globals s))) rows))
                  (globals s1) g1 ps g' Hy1 Ha1 Hps) as (g2 & Hg2 & Hy2 & Ha2).
      rewrite (drop_S _ _ _ Hr). rewrite firstn_cons.
      cbn [advance process_rows Js.bind]. rewrite Hp. cbn [Js.bind].
      rewrite Hg2. cbn [Js.bind]. rewrite Hn, Hadv. cbn [map length app]. eexists _, _, _. split; [reflexivity|]. split; [reflexivity|].
      split; [|exact Hs'].
      rewrite Hst'. f_equal; [f_equal|]; [lia|congruence|congruence].
    + apply lookup_ge_None in Hr.
      rewrite drop_ge by lia. rewrite take_nil. cbn [advance process_rows].
      rewrite (next_exhausted rows s Hs Hr).
      destruct (IH s Hs) as (ps & g' & s' & Hps & Hadv & Hst' & Hs').
      rewrite drop_ge in Hps by lia. rewrite take_nil in Hps. simpl in Hps.
      injection Hps as <- <-. simpl in Hadv. rewrite Nat.sub_0_r in Hadv.
      rewrite Hadv. eexists _, _, _. split; [reflexivity|]. split; [reflexivity|].
      split; [|exact Hs'].
      rewrite Hst'. f_equal. f_equal. lia.
Qed.

End Replay.

Lemma advance_exhausted (path : string) (rows : list RawRow) (m : nat) (s : Server) :
  String.eqb path "" = false ->
  in_step path rows s ->
  (length rows <= currentRowIndex (globals s))%nat ->
  advance m (Some path) s = (replicate m Done, s).
Proof.
  intros Hp Hs Hc. induction m as [|m IH]; [reflexivity|].
  cbn [advance]. rewrite (next_exhausted path Hp rows s Hs Hc), IH. reflexivity.
Qed.

Lemma delivered_replay (ps : list ProcessedRow) (n : nat) :
  delivered (map Data ps ++ replicate n Done) = ps.
Proof.
  unfold delivered. induction ps as [|p ps IH]; simpl.
  - induction n as [|n IHn]; [reflexivity|exact IHn].
  - f_equal. exact IH.
Qed.

(** A successful upload leaves the session at the start of its dataset. *)
Lemma upload_in_step (f : UploadedFile) (s : Server) :
  in_step ("uploads/" ++ name f) (dataset_rows (content f))
          (snd (upload (Some f) true s))
  /\ currentRowIndex (globals (snd (upload (Some f) true s))) = 0%nat.
Proof.
  split; [|reflexivity].
  exists (content f). simpl. rewrite lookup_insert_eq.
  unfold dataset_rows. rewrite length_map. auto.
Qed.

(** ** Cursor and exhaustion *)

(** C7: after a dataset of [L] rows is loaded, [K] advances leave the
    cursor at [min K L] (which is also what the summary reports) and have
    delivered that many annotated rows; once
    the cursor has reached [L] (after [L + j] advances, for any [j]) an
    advance answers "done" and returns the very same state, and so does
    any number [m] of further advances. *)
Theorem C7_cursor_and_exhaustion (f : UploadedFile) (s : Server) (K j m : nat) :
  let path := "uploads/" ++ name f in
  let L := length (content f) in
  let s0 := snd (upload (Some f) true s) in
  let sx := snd (advance (L + j) (Some path) s0) in
  currentRowIndex (globals (snd (advance K (Some path) s0))) = Nat.min K L
  /\ length (delivered (fst (advance K (Some path) s0))) = Nat.min K L
  /\ (exists c, summary (Some path) (snd (advance K (Some path) s0))
                = Some {| total_rows := L; current_row := Nat.min K L;
                          battery_discharge_cycles := c |})
  /\ currentRowIndex (globals sx) = L
  /\ next (Some path) sx = (Done, sx)
  /\ advance m (Some path) sx = (replicate m Done, sx).
Proof.
  intros path L s0 sx.
  assert (Hp : String.eqb path "" = false) by reflexivity.
  destruct (upload_in_step f s) as [H0 Hc0]. fold path s0 in H0, Hc0.
  assert (Hrows : length (dataset_rows (content f)) = L)
    by (unfold dataset_rows; apply length_map).
  destruct (advance_replays path Hp _ K s0 H0)
    as (ps & g' & sK & Hps & Hadv & Hst & (dK & HdK & HlK & _)).
  destruct (advance_replays path Hp _ (L + j) s0 H0) as (qs & h' & sL & _ & HadvL & HstL & HsL).
  rewrite Hc0, Hrows in *. injection Hst as HcK _ _. injection HstL as HcL _ _.
  assert (Hsx : sx = sL) by (unfold sx; rewrite HadvL; reflexivity).
  rewrite Hadv, Hsx. cbn [fst snd].
  destruct (process_rows_total (take K (drop 0 (dataset_rows (content f)))) (globals s0))
    as (ps' & g'' & Hps' & Hlen & _).
  rewrite Hps in Hps'. injection Hps' as <- <-.
  rewrite delivered_replay, Hlen, drop_0, length_take, Hrows.
  assert (HL : currentRowIndex (globals sL) = L) by lia.
  repeat split; try lia.
  - unfold summary, loadExcelData. rewrite Hp, HdK. cbn [default id].
    rewrite HlK, HcK. eexists. f_equal. f_equal. lia.
  - apply (next_exhausted path Hp _ sL HsL). rewrite Hrows. lia.
  - apply (advance_exhausted path _ m sL Hp HsL). rewrite Hrows. lia.
Qed.

(** ** Loading a dataset *)

(** C8 (as the code behaves): the upload handler sets the cursor and
    the counter to 0 and leaves [lastBatteryAction] as it is.  After a
    first dataset that ends on a discharging row, a second upload starts
    with the last action still Discharging instead of none, and the
    discharging run that opens the second dataset is not counted. *)
Theorem C8_upload_keeps_last_action :
  (forall f s,
     session_state (snd (upload (Some f) true s))
     = (0%nat, 0, lastBatteryAction (globals s)))
  /\ let night := Unprocessed (mk_row false "power off" 0 1500 false (num_value 80)) in
     let s1 := snd (upload (Some {| name := "first.xlsx"; content := [night] |}) true boot) in
     let s2 := snd (advance 1 (Some "uploads/first.xlsx") s1) in
     let s3 := snd (upload (Some {| name := "second.xlsx"; content := [night] |}) true s2) in
     session_state s2 = (1%nat, 1, Some Discharging)
     /\ session_state s3 = (0%nat, 0, Some Discharging)
     /\ session_state s3 <> session_state boot
     /\ exists p s4,
          advance 1 (Some "uploads/second.xlsx") s3 = ([Data p], s4)
          /\ battery_action p = Discharging
          /\ discharge_cycles p = 0.
Proof.
  split; [reflexivity|].
  cbn zeta. split; [vm_compute; reflexivity|]. split; [vm_compute; reflexivity|].
  split; [vm_compute; discriminate|].
  eexists _, _. split; [vm_compute; reflexivity|]. split; reflexivity.
Qed.

(** ** The efficiency in exact arithmetic, and a dataset that counts *)

Lemma efficiency_value (c : Z) :
  exists q, efficiency c = Fin q /\ (q == 100 - (2 # 10) * inject_Z c)%Q.
Proof.
  eexists. split; [reflexivity|].
  rewrite !Qred_correct. ring.
Qed.


(** ** The figures in double precision *)

Section DoublePrecision.

Import PrimFloat SpecFloat FloatOps FloatAxioms.

(** *** Reading the tables *)







(** *** Battery efficiency *)










(** *** Energy contributions *)










(** With two string cells the comparison is by code units, so a mixed
    source can be chosen although solar exceeds demand; the remainder is
    then negative. *)
Example negative_remainder :
  let r := {| timestamp := JUndefined; is_daytime := JBool true;
              solar_input_watts := JString "1000"; grid_status := JString "normal";
              household_power_demand_watts := JString "900";
              heavy_appliance_active := JBool false;
              ambient_temperature_celsius := JUndefined;
              weather_condition := JUndefined; battery_percent := num_value 80 |} in
  exists p g', processRowData initial_globals r = Normal (p, g')
    /\ power_source p = Some SolarGrid
    /\ to_number (solar_input_watts r) = Num.of_Z 1000
    /\ to_number (household_power_demand_watts r) = Num.of_Z 900
    /\ (Double.totalDemandKwh (Double.of_Z 900) - Double.solarKwh (Double.of_Z 1000) <? 0)%float
       = true.
Proof.
  cbn zeta. rewrite processRowData_unfold. eexists _, _. split; [reflexivity|].
  repeat split; vm_compute; reflexivity.
Qed.

End DoublePrecision.

(** ** What [parseFloat] rejects, the implicit conversion rejects too,
    blank strings apart *)

Lemma digits_count_ge (base : Z) (l : list ascii) (acc : Z) (n : nat) :
  (n <= snd (fst (digits base l acc n)))%nat.
Proof.
  revert acc n. induction l as [|c l IH]; intros acc n; simpl; [lia|].
  destruct (digit_value base c); simpl; [|lia].
  specialize (IH (acc * base + z) (S n)). lia.
Qed.

Lemma strip_prefix_app (p l w : list ascii) (rest : list ascii) :
  strip_prefix p l = Some rest -> strip_prefix p (l ++ w)%list = Some (rest ++ w)%list.
Proof.
  revert l. induction p as [|a p IH]; intros l; simpl.
  - intros [= <-]. reflexivity.
  - destruct l as [|b l]; simpl; [discriminate|].
    destruct (Ascii.eqb a b); [apply IH|discriminate].
Qed.

Lemma unsigned_decimal_none (l : list ascii) :
  unsigned_decimal l = None <-> numeric_head l = false.
Proof.
  unfold unsigned_decimal, numeric_head.
  destruct (strip_prefix _ l) as [rest|]; [split; discriminate|].
  cbn [is_some orb].
  destruct l as [|c r]; cbn [digits]; [split; reflexivity|].
  unfold is_digit.
  destruct (digit_value 10 c) as [d|] eqn:Hc.
  - pose proof (digits_count_ge 10 r (0 * 10 + d) 1) as Hge.
    destruct (digits 10 r (0 * 10 + d) 1) as [[ip n1] r1]. cbn [fst snd] in Hge.
    destruct n1 as [|n1]; [lia|].
    cbn [is_some orb].
    destruct r1 as [|c1 r1].
    + destruct (exponent []); split; discriminate.
    + destruct (Ascii.eqb c1 ".").
      * destruct (digits 10 r1 0 0) as [[fp n2] r3].
        destruct (exponent r3). split; discriminate.
      * destruct (exponent (c1 :: r1)). split; discriminate.
  - cbn [is_some orb]. destruct (Ascii.eqb c ".") eqn:Hdot; cbn [andb].
    + destruct r as [|c2 r2]; cbn [digits]; [split; reflexivity|].
      destruct (digit_value 10 c2) as [d2|] eqn:Hc2; cbn [is_some].
      * pose proof (digits_count_ge 10 r2 (0 * 10 + d2) 1) as Hge.
        destruct (digits 10 r2 (0 * 10 + d2) 1) as [[fp n2] r3]. cbn [fst snd] in Hge.
        destruct n2 as [|n2]; [lia|]. destruct (exponent r3). split; discriminate.
      * split; reflexivity.
    + split; reflexivity.
Qed.

Lemma numeric_head_app (l w : list ascii) :
  numeric_head l = true -> numeric_head (l ++ w) = true.
Proof.
  unfold numeric_head. intros H. apply orb_true_iff in H as [H|H].
  - destruct (strip_prefix _ l) as [rest|] eqn:E; [|discriminate].
    rewrite (strip_prefix_app _ _ w _ E). reflexivity.
  - apply orb_true_iff. right.
    destruct l as [|c r]; [discriminate|]. cbn [app].
    apply orb_true_iff in H as [H|H]; [rewrite H; reflexivity|].
    apply andb_true_iff in H as [H1 H2]. rewrite H1.
    destruct r as [|c2 r]; [discriminate|]. cbn [app]. rewrite H2.
    apply orb_true_r.
Qed.

Lemma signed_head_app (l w : list ascii) :
  signed_head l = true -> signed_head (l ++ w) = true.
Proof.
  destruct l as [|c l]; [discriminate|]. cbn [signed_head app].
  destruct (Ascii.eqb c "-"); [apply numeric_head_app|].
  destruct (Ascii.eqb c "+"); [apply numeric_head_app|].
  apply (numeric_head_app (c :: l)).
Qed.

Lemma signed_decimal_none (l : list ascii) :
  signed_decimal l = None <-> signed_head l = false.
Proof.
  destruct l as [|c l]; cbn [signed_decimal signed_head]; [split; reflexivity|].
  destruct (Ascii.eqb c "-").
  { rewrite <- unsigned_decimal_none.
    destruct (unsigned_decimal l) as [[v rest]|]; split; (discriminate || reflexivity). }
  destruct (Ascii.eqb c "+"); apply unsigned_decimal_none.
Qed.

Lemma unsigned_decimal_value (l rest : list ascii) (v : num) :
  unsigned_decimal l = Some (v, rest) -> v = PInf \/ exists q, v = Fin q.
Proof.
  unfold unsigned_decimal.
  destruct (strip_prefix _ l); [intros [= <- _]; auto|].
  destruct (digits 10 l 0 0) as [[ip n1] r1].
  match goal with
  | |- match ?m with _ => _ end = _ -> _ => destruct m as [[mant r]|]; [|discriminate]
  end.
  destruct (exponent r). intros [= <- _]. right. eexists. reflexivity.
Qed.

Lemma signed_decimal_value (l rest : list ascii) (v : num) :
  signed_decimal l = Some (v, rest) -> v <> NaN.
Proof.
  destruct l as [|c l]; cbn [signed_decimal]; [discriminate|].
  destruct (Ascii.eqb c "-").
  { destruct (unsigned_decimal l) as [[u r]|] eqn:E; [|discriminate].
    intros [= <- _]. apply unsigned_decimal_value in E as [->|[q ->]]; discriminate. }
  destruct (Ascii.eqb c "+"); intros E;
    apply unsigned_decimal_value in E as [->|[q ->]]; discriminate.
Qed.

Lemma is_white2_comma (c1 c2 : ascii) :
  is_white2 c1 c2 = true -> c1 <> ","%char /\ c2 <> ","%char.
Proof.
  unfold is_white2. intros H. apply andb_true_iff in H as [H1 H2].
  split; intros ->; discriminate.
Qed.

(** The bytes of a white space character of three bytes are not ASCII. *)
Lemma is_white3_high (c1 c2 c3 : ascii) :
  is_white3 c1 c2 c3 = true ->
  (128 <= nat_of_ascii c1 /\ 128 <= nat_of_ascii c2 /\ 128 <= nat_of_ascii c3)%nat.
Proof.
  unfold is_white3. cbv zeta. intros H.
  repeat first [rewrite orb_true_iff in H | rewrite andb_true_iff in H
               | rewrite Nat.eqb_eq in H | rewrite Nat.leb_le in H].
  lia.
Qed.

Lemma is_white3_comma (c1 c2 c3 : ascii) :
  is_white3 c1 c2 c3 = true -> c1 <> ","%char /\ c2 <> ","%char /\ c3 <> ","%char.
Proof.
  intros (H1 & H2 & H3)%is_white3_high.
  repeat split; intros ->; change (nat_of_ascii ",") with 44%nat in *; lia.
Qed.

(** What [trim_left] drops is white space, which holds no comma. *)
Lemma trim_left_white (l : list ascii) :
  exists w, l = (w ++ trim_left l)%list /\ comma_free w.
Proof.
  assert (Hnil : forall l0 : list ascii, exists w, l0 = (w ++ l0)%list /\ comma_free w)
    by (intros l0; exists []; split; [reflexivity|constructor]).
  assert (H : forall (n : nat) (l0 : list ascii), (length l0 <= n)%nat ->
             exists w, l0 = (w ++ trim_left l0)%list /\ comma_free w).
  { induction n as [|n IH]; intros l0 Hn.
    { destruct l0; [apply Hnil|cbn in Hn; lia]. }
    destruct l0 as [|c1 l1]; [apply Hnil|]. cbn [length] in Hn. cbn [trim_left].
    destruct (is_white c1) eqn:H1.
    { destruct (IH l1) as (w & E & Hw); [lia|].
      exists (c1 :: w). split; [cbn [app]; f_equal; exact E|].
      constructor; [intros ->; discriminate H1|exact Hw]. }
    destruct l1 as [|c2 l2]; [apply Hnil|]. cbn [length] in Hn.
    destruct (is_white2 c1 c2) eqn:H2.
    { destruct (IH l2) as (w & E & Hw); [lia|].
      apply is_white2_comma in H2 as [Ha Hb].
      exists (c1 :: c2 :: w). split; [cbn [app]; do 2 f_equal; exact E|].
      repeat (constructor; [assumption|]). exact Hw. }
    destruct l2 as [|c3 l3]; [apply Hnil|]. cbn [length] in Hn.
    destruct (is_white3 c1 c2 c3) eqn:H3; [|apply Hnil].
    destruct (IH l3) as (w & E & Hw); [lia|].
    apply is_white3_comma in H3 as (Ha & Hb & Hc).
    exists (c1 :: c2 :: c3 :: w). split; [cbn [app]; do 3 f_equal; exact E|].
    repeat (constructor; [assumption|]). exact Hw. }
  exact (H (length l) l (le_n _)).
Qed.

(** So is what [trim_right] drops. *)
Lemma trim_right_white (l : list ascii) :
  exists w, l = (trim_right l ++ w)%list /\ comma_free w.
Proof.
  induction l as [|c l (w & E & Hw)]; [exists []; split; [reflexivity|constructor]|].
  cbn [trim_right]. destruct (trim_left (c :: l)) as [|c' t] eqn:Et.
  - exists (c :: l). split; [reflexivity|].
    destruct (trim_left_white (c :: l)) as (w' & E' & Hw').
    rewrite Et, app_nil_r in E'. rewrite E'. exact Hw'.
  - exists w. split; [cbn [app]; f_equal; exact E|exact Hw].
Qed.

Lemma radix_literal_head (l : list ascii) (v : num) :
  radix_literal l = Some v -> signed_head l = true.
Proof.
  destruct l as [|z [|r l]]; cbn [radix_literal]; try discriminate.
  destruct (Ascii.eqb z "0") eqn:Hz;
    [|repeat match goal with |- context [if ?b then _ else _] => destruct b end;
      discriminate].
  apply Ascii.eqb_eq in Hz. subst z. intros _. reflexivity.
Qed.

(** A string that [parseFloat] turns into NaN and that is not blank is
    NaN for the comparisons as well. *)
Lemma parseFloat_nan_to_number (s : string) :
  parseFloat s = NaN -> is_blank s = false -> string_to_number s = NaN.
Proof.
  unfold parseFloat, is_blank, string_to_number, trim.
  set (l := trim_left (list_ascii_of_string s)).
  intros Hp Hb.
  assert (Hl : signed_head l = false).
  { apply signed_decimal_none.
    destruct (signed_decimal l) as [[v rest]|] eqn:E; [|reflexivity].
    apply signed_decimal_value in E. congruence. }
  destruct (trim_right_white l) as (w & Hsplit & _).
  set (t := trim_right l) in *.
  assert (Ht : signed_head t = false).
  { destruct (signed_head t) eqn:E; [|reflexivity].
    apply (signed_head_app t w) in E. congruence. }
  destruct t as [|c t'] eqn:Et; [discriminate|].
  rewrite <- Et in *.
  rewrite (proj2 (signed_decimal_none t) Ht).
  destruct (radix_literal t) as [v|] eqn:Er; [|reflexivity].
  apply radix_literal_head in Er. congruence.
Qed.

(** ** Cells that are not numbers *)

Lemma nan_not_below (v : value) (n : num) :
  to_number v = NaN -> op_lt v (JNumber n) = false /\ op_gt v (JNumber n) = false.
Proof.
  intros H. unfold op_lt, op_gt, less_than.
  destruct v; cbn [to_number] in *; rewrite ?H; try discriminate H;
    cbn; auto; destruct n; auto.
Qed.

Lemma classification_alerts_plain (r : RawRow) :
  contains "Battery Low" (String.concat ", " (snd (classify_power_source r))) = false.
Proof.
  unfold classify_power_source, when.
  repeat match goal with
         | |- context [if ?b then _ else _] => destruct b
         end; reflexivity.
Qed.

(** C10 (counterexample): a battery cell holding one blank is a string
    that [parseFloat] reads as no number, yet the comparisons convert it
    to 0: the low-battery alert is emitted and the battery charges. *)
Lemma C10_blank_battery_percent :
  let r := mk_row false "normal" 0 1500 false (JString " ") in
  parseFloat " " = NaN
  /\ exists p g', processRowData initial_globals r = Normal (p, g')
       /\ alerts p = "Battery Low:  %"
       /\ battery_action p = Charging.
Proof.
  cbn zeta. split; [reflexivity|]. rewrite processRowData_unfold.
  eexists _, _. split; [reflexivity|]. split; reflexivity.
Qed.

(** The same with a battery cell that holds a no-break space. *)
Example nbsp_battery_percent :
  let r := mk_row false "normal" 0 1500 false (JString nbsp) in
  parseFloat nbsp = NaN
  /\ is_blank nbsp = true
  /\ exists p g', processRowData initial_globals r = Normal (p, g')
       /\ alerts p = "Battery Low: " ++ nbsp ++ "%"
       /\ battery_action p = Charging.
Proof.
  cbn zeta. split; [reflexivity|]. split; [reflexivity|]. rewrite processRowData_unfold.
  eexists _, _. split; [reflexivity|]. split; reflexivity.
Qed.

Lemma nan_battery_percent (g : Globals) (r : RawRow) :
  to_number (battery_percent r) = NaN ->
  exists p g', processRowData g r = Normal (p, g')
    /\ low_battery_alert (battery_percent r) = []
    /\ contains "Battery Low" (alerts p) = false
    /\ battery_action p = (if uses_battery (power_source p) then Discharging else Idle)
    /\ battery_action p <> Charging.
Proof.
  intros Hn.
  rewrite processRowData_unfold. eexists _, _. split; [reflexivity|].
  cbn [alerts battery_action power_source].
  assert (Hlow : low_battery_alert (battery_percent r) = []).
  { unfold low_battery_alert. rewrite (proj1 (nan_not_below _ (Fin 28) Hn)). reflexivity. }
  rewrite Hlow, app_nil_r.
  assert (Hact : rule_action (battery_rule r (fst (classify_power_source r)))
                 = if uses_battery (fst (classify_power_source r)) then Discharging else Idle).
  { unfold battery_rule.
    rewrite (proj1 (nan_not_below _ (Fin 100) Hn)), (proj2 (nan_not_below _ (Fin 28) Hn)).
    rewrite !andb_false_r. destruct (uses_battery _); reflexivity. }
  split; [reflexivity|]. split; [apply classification_alerts_plain|].
  split; [exact Hact|]. rewrite Hact. destruct (uses_battery _); discriminate.
Qed.

(** C10 (amended): if [battery_percent] is a string that does not parse
    to any number and is not blank, classification completes, emits no
    low-battery alert, and the battery action is Discharging when the
    power source is Battery or Solar+Battery and Idle otherwise, never
    Charging. *)
Theorem C10_unparsed_battery_percent (g : Globals) (r : RawRow) (s : string) :
  battery_percent r = JString s ->
  parseFloat s = NaN ->
  is_blank s = false ->
  exists p g', processRowData g r = Normal (p, g')
    /\ low_battery_alert (battery_percent r) = []
    /\ contains "Battery Low" (alerts p) = false
    /\ battery_action p = (if uses_battery (power_source p) then Discharging else Idle)
    /\ battery_action p <> Charging.
Proof.
  intros Hbp Hparse Hblank. apply nan_battery_percent.
  rewrite Hbp. cbn [to_number]. apply parseFloat_nan_to_number; assumption.
Qed.

Lemma C10_unparsed_battery_percent_witness :
  let r := mk_row true "normal" 3000 2000 false (JString "n/a") in
  exists p g', processRowData initial_globals r = Normal (p, g')
    /\ low_battery_alert (battery_percent r) = []
    /\ contains "Battery Low" (alerts p) = false
    /\ battery_action p = (if uses_battery (power_source p) then Discharging else Idle)
    /\ battery_action p <> Charging.
Proof.
  intros r. apply (C10_unparsed_battery_percent initial_globals r "n/a"); reflexivity.
Defined.

(** ** Malformed numeric cells *)

Lemma malformed_nan (v : value) : malformed v -> to_number v = NaN.
Proof. intros (s & -> & H). exact H. Qed.

Lemma blank_zero (v : value) : blank v -> to_number v = Fin 0.
Proof.
  intros (s & -> & H). cbn [to_number]. unfold string_to_number.
  unfold is_blank in H. destruct (trim (list_ascii_of_string s)); [reflexivity|discriminate].
Qed.

Lemma contains_prefix (needle hay : string) :
  String.prefix needle hay = true -> contains needle hay = true.
Proof. intros H. destruct hay; cbn [contains]; rewrite H; reflexivity. Qed.

Lemma contains_app (needle a b : string) :
  contains needle b = true -> contains needle (a ++ b) = true.
Proof.
  intros H. induction a as [|c a IH]; [exact H|].
  change (String c a ++ b) with (String c (a ++ b)). cbn [contains].
  rewrite IH. apply orb_true_r.
Qed.

Lemma contains_concat_last (needle x : string) (l : list string) :
  contains needle x = true -> contains needle (String.concat ", " (l ++ [x])) = true.
Proof.
  intros H. induction l as [|a l IH]; [exact H|].
  cbn [app]. destruct (l ++ [x])%list as [|y ys] eqn:E.
  { destruct l; discriminate E. }
  change (String.concat ", " (a :: y :: ys))
    with (a ++ ", " ++ String.concat ", " (y :: ys)).
  apply contains_app, contains_app. exact IH.
Qed.

(** C9 (counterexample): the only row of a dataset has the text "n/a"
    in its demand column.  The advance answers with an ordinary annotated
    row: no exception, no alert, nothing that names the column; the
    derived energy figures are NaN. *)
Lemma C9_malformed_demand_unreported :
  let r := {| timestamp := JString "2024-01-01 00:00:00"; is_daytime := JBool false;
              solar_input_watts := num_value 0; grid_status := JString "normal";
              household_power_demand_watts := JString "n/a";
              heavy_appliance_active := JBool false;
              ambient_temperature_celsius := num_value 25;
              weather_condition := JString "Sunny"; battery_percent := num_value 80 |} in
  let s0 := snd (upload (Some {| name := "bad.xlsx"; content := [Unprocessed r] |}) true boot) in
  malformed (household_power_demand_watts r)
  /\ reports_field "household_power_demand_watts" (processRowData (globals s0) r) = false
  /\ reports_field "DataValidationError" (processRowData (globals s0) r) = false
  /\ exists p s1,
       next (Some "uploads/bad.xlsx") s0 = (Data p, s1)
       /\ alerts p = ""
       /\ total_consumption_kwh p = NaN
       /\ grid_contribution p = NaN.
Proof.
  cbn zeta. split; [eexists; split; reflexivity|].
  split; [reflexivity|]. split; [reflexivity|].
  eexists _, _. split; [vm_compute; reflexivity|]. repeat split.
Qed.

(** C9 (amended): a row with a non-numeric string in a numeric column
    (demand, solar, battery or temperature) does not crash
    classification: it completes with an annotated row that carries every
    derived field, and nothing is raised or reported.  What is computed
    from the column depends on the string.  A string that is neither a
    numeric literal nor blank is NaN: as the demand it gives a NaN
    [total_consumption_kwh] and a backup time of 0; as the battery level
    it raises no low-battery alert and never charges.  A blank string is
    0: as the demand it gives a [total_consumption_kwh] and a backup time
    of 0; as the battery level it raises the low-battery alert.
    Efficiency and the cycle counter are produced as usual. *)
Theorem C9_malformed_row_completes (g : Globals) (r : RawRow) :
  non_numeric (household_power_demand_watts r)
  \/ non_numeric (solar_input_watts r)
  \/ non_numeric (battery_percent r)
  \/ non_numeric (ambient_temperature_celsius r) ->
  exists p g', processRowData g r = Normal (p, g')
    /\ raw p = r
    /\ discharge_cycles p = batteryDischargeCycles g'
    /\ (exists q, battery_efficiency p = Fin q)
    /\ (malformed (household_power_demand_watts r) ->
        total_consumption_kwh p = NaN /\ estimated_battery_backup_time p = Fin 0)
    /\ (blank (household_power_demand_watts r) ->
        total_consumption_kwh p = Fin 0 /\ estimated_battery_backup_time p = Fin 0)
    /\ (malformed (battery_percent r) ->
        contains "Battery Low" (alerts p) = false /\ battery_action p <> Charging)
    /\ (blank (battery_percent r) ->
        contains "Battery Low" (alerts p) = true).
Proof.
  intros _. rewrite processRowData_unfold. eexists _, _. split; [reflexivity|].
  cbn [raw discharge_cycles battery_efficiency total_consumption_kwh
       estimated_battery_backup_time alerts battery_action batteryDischargeCycles].
  split; [reflexivity|]. split; [reflexivity|].
  split; [destruct (efficiency_value (cycles_after g
            (battery_rule r (fst (classify_power_source r))))) as (q & Hq & _); eauto|].
  split; [|split; [|split]].
  - intros Hd%malformed_nan. unfold totalDemandKwh, backup_time. rewrite Hd.
    split; reflexivity.
  - intros Hd%blank_zero. unfold totalDemandKwh, backup_time. rewrite Hd.
    split; reflexivity.
  - intros Hb%malformed_nan.
    destruct (nan_battery_percent g r Hb) as (p & g' & Hp & _ & Hal & _ & Hact).
    rewrite processRowData_unfold in Hp. injection Hp as <- <-. auto.
  - intros Hb. pose proof (blank_zero _ Hb) as Hz. destruct Hb as (s & Hs & _).
    unfold low_battery_alert, op_lt, less_than. rewrite Hs in *. cbn [to_number] in Hz.
    cbn [to_number]. rewrite Hz. cbn [Num.lt]. change (0 ?= 28)%Q with Lt. cbn iota.
    apply contains_concat_last, contains_prefix. reflexivity.
Qed.

(** A demand that reads "n/a" next to a battery level that reads
    "full". *)
Lemma C9_malformed_row_completes_witness :
  let r := {| timestamp := JString "2024-01-01 00:00:00"; is_daytime := JBool false;
              solar_input_watts := num_value 0; grid_status := JString "normal";
              household_power_demand_watts := JString "n/a";
              heavy_appliance_active := JBool false;
              ambient_temperature_celsius := num_value 25;
              weather_condition := JString "Sunny"; battery_percent := JString "full" |} in
  exists p g', processRowData initial_globals r = Normal (p, g')
    /\ raw p = r
    /\ discharge_cycles p = batteryDischargeCycles g'
    /\ (exists q, battery_efficiency p = Fin q)
    /\ (malformed (household_power_demand_watts r) ->
        total_consumption_kwh p = NaN /\ estimated_battery_backup_time p = Fin 0)
    /\ (blank (household_power_demand_watts r) ->
        total_consumption_kwh p = Fin 0 /\ estimated_battery_backup_time p = Fin 0)
    /\ (malformed (battery_percent r) ->
        contains "Battery Low" (alerts p) = false /\ battery_action p <> Charging)
    /\ (blank (battery_percent r) ->
        contains "Battery Low" (alerts p) = true).
Proof.
  intros r. apply (C9_malformed_row_completes initial_globals r).
  left. left. exists "n/a". split; reflexivity.
Defined.

(** * Further properties of the handlers *)

(** ** What one [/api/data/next] request can do *)

(** X1: a request never ends in an escaping exception.  When it answers
    with a row the cursor has moved by exactly one and the counter and the
    last action in the state are the ones of that row; any other answer
    (404, "done") leaves the whole state, files included, as it was. *)
Theorem next_outcome (filePath : option string) (s : Server) :
  match next filePath s with
  | (Failed _, _) => False
  | (Data p, s') =>
      currentRowIndex (globals s') = S (currentRowIndex (globals s))
      /\ batteryDischargeCycles (globals s') = discharge_cycles p
      /\ lastBatteryAction (globals s') = Some (battery_action p)
      /\ batteryDischargeCycles (globals s)
         <= discharge_cycles p <= batteryDischargeCycles (globals s) + 1
  | (_, s') => s' = s
  end.
Proof.
  unfold next. destruct filePath as [path|]; [|reflexivity].
  destruct (String.eqb path ""); [reflexivity|].
  destruct (disk s !! path) as [data|] eqn:Hd; [|reflexivity].
  unfold loadExcelData. rewrite Hd. cbn [default id].
  destruct (Nat.leb_spec (length data) (currentRowIndex (globals s))) as [Hle|Hlt];
    [reflexivity|].
  destruct (data !! currentRowIndex (globals s)) as [row|] eqn:Hrow.
  - destruct (processRowData_counter (globals s) (cells row))
      as (p & g1 & -> & Hc & Hb & Ha & Hi).
    cbn. rewrite Hi, Hc. auto.
  - apply lookup_ge_None in Hrow. lia.
Qed.

Lemma next_disk_frame (filePath : option string) (s : Server) (q : string) :
  (length <$> disk (snd (next filePath s)) !! q) = (length <$> disk s !! q)
  /\ (filePath <> Some q -> disk (snd (next filePath s)) !! q = disk s !! q).
Proof.
  unfold next. destruct filePath as [path|]; [|split; reflexivity].
  destruct (String.eqb path ""); [split; reflexivity|].
  destruct (disk s !! path) as [data|] eqn:Hd; [|split; reflexivity].
  unfold loadExcelData. rewrite Hd. cbn [default id].
  destruct (length data <=? currentRowIndex (globals s))%nat; [split; reflexivity|].
  destruct (data !! currentRowIndex (globals s)) as [row|]; [|split; reflexivity].
  destruct (processRowData (globals s) (cells row)) as [[p g1]|e]; [|split; reflexivity].
  cbn [snd disk]. unfold appendProcessedData. rewrite Hd.
  destruct (decide (path = q)) as [->|Hne].
  - split; [|congruence]. rewrite lookup_insert_eq, Hd. cbn. f_equal. apply length_imap.
  - rewrite lookup_insert_ne by exact Hne. split; reflexivity.
Qed.

(** X2: a request for one file never touches the stored rows of another
    file, and never changes how many rows any file has (so no file is
    created or removed either). *)
Theorem next_keeps_other_files (filePath : option string) (s : Server) (q : string) :
  (length <$> disk (snd (next filePath s)) !! q) = (length <$> disk s !! q)
  /\ (filePath <> Some q -> disk (snd (next filePath s)) !! q = disk s !! q).
Proof. exact (next_disk_frame filePath s q). Qed.


Lemma next_keeps_other_files_witness :
  let r := mk_row false "normal" 0 1500 false (num_value 80) in
  let s0 := snd (upload (Some {| name := "a.xlsx"; content := [Unprocessed r] |}) true boot) in
  let s1 := snd (upload (Some {| name := "b.xlsx"; content := [Unprocessed r] |}) true s0) in
  disk (snd (next (Some "uploads/b.xlsx") s1)) !! "uploads/a.xlsx"
  = disk s1 !! "uploads/a.xlsx".
Proof.
  intros r s0 s1.
  apply (proj2 (next_keeps_other_files (Some "uploads/b.xlsx") s1 "uploads/a.xlsx")).
  discriminate.
Defined.

Lemma advance_keeps_other_files (k : nat) (path q : string) (s : Server) :
  path <> q -> disk (snd (advance k (Some path) s)) !! q = disk s !! q.
Proof.
  intros Hne. revert s. induction k as [|k IH]; intros s; [reflexivity|].
  cbn [advance].
  pose proof (proj2 (next_disk_frame (Some path) s q)) as Hn.
  destruct (next (Some path) s) as [r s1]. cbn [snd] in Hn.
  specialize (IH s1). destruct (advance k (Some path) s1) as [rs s2].
  cbn [snd] in *. rewrite IH. apply Hn. congruence.
Qed.

(** X3: the cursor belongs to the process, not to a file.  After [k]
    advances on a freshly uploaded file of [L] rows, a request for another
    stored file does not start at that file's first row: it classifies the
    row at index [min k L] of that file, or answers "done" when the file
    has no such row. *)
Theorem cursor_shared_between_files (f : UploadedFile) (s : Server) (k : nat)
    (other : string) (data : list SheetRow) :
  other <> "uploads/" ++ name f ->
  String.eqb other "" = false ->
  disk s !! other = Some data ->
  let path := "uploads/" ++ name f in
  let sk := snd (advance k (Some path) (snd (upload (Some f) true s))) in
  match data !! Nat.min k (length (content f)) with
  | Some row =>
      exists p s', next (Some other) sk = (Data p, s') /\ raw p = cells row
  | None => next (Some other) sk = (Done, sk)
  end.
Proof.
  intros Hne Hnonempty Hdata path sk.
  assert (Hcur : currentRowIndex (globals sk) = Nat.min k (length (content f))).
  { destruct (upload_in_step f s) as [H0 Hc0].
    destruct (advance_replays path eq_refl _ k _ H0) as (ps & g' & s' & _ & Hadv & Hst & _).
    rewrite Hc0 in Hst. unfold dataset_rows in Hst. rewrite length_map in Hst.
    unfold sk. fold path. rewrite Hadv. cbn [snd]. injection Hst as -> _ _. lia. }
  assert (Hdisk : disk sk !! other = Some data).
  { unfold sk. rewrite (advance_keeps_other_files k path other) by (unfold path; congruence).
    cbn. rewrite lookup_insert_ne by (unfold path; congruence). exact Hdata. }
  unfold next, loadExcelData. rewrite Hnonempty, Hdisk. cbn [default id]. rewrite Hcur.
  destruct (data !! Nat.min k (length (content f))) as [row|] eqn:Hrow.
  - pose proof (lookup_lt_Some _ _ _ Hrow) as Hlt.
    destruct (Nat.leb_spec (length data) (Nat.min k (length (content f)))); [lia|].
    rewrite processRowData_unfold. eexists _, _. split; reflexivity.
  - apply lookup_ge_None in Hrow.
    destruct (Nat.leb_spec (length data) (Nat.min k (length (content f))));
      [reflexivity|lia].
Qed.

(** ** What the stored sheet holds *)

Lemma stored_after_step (content : list SheetRow) (pre : list ProcessedRow)
    (p : ProcessedRow) :
  imap (fun index row =>
          if Z.of_nat index =? Z.of_nat (length pre) - 1 then spread row p else row)
       (stored_after content pre)
  = stored_after content (pre ++ [p]).
Proof.
  unfold stored_after. apply list_eq. intros j.
  rewrite !list_lookup_imap.
  destruct (content !! j) as [x|]; [|reflexivity]. cbn. f_equal.
  destruct (Z.eqb_spec (Z.of_nat j) (Z.of_nat (length pre) - 1)) as [E|E].
  - assert (Hj : S j = length pre) by lia.
    rewrite Hj, lookup_ge_None_2 by lia.
    rewrite lookup_app_r by lia. rewrite Nat.sub_diag. reflexivity.
  - destruct (Nat.lt_ge_cases (S j) (length pre)) as [Hlt|Hge].
    + rewrite lookup_app_l by lia. reflexivity.
    + rewrite (lookup_ge_None_2 pre) by lia.
      rewrite lookup_ge_None_2; [reflexivity|]. rewrite length_app. cbn. lia.
Qed.

Lemma advance_stores (path : string) (content : list SheetRow) (k : nat) :
  String.eqb path "" = false ->
  forall (s : Server) (pre : list ProcessedRow),
    disk s !! path = Some (stored_after content pre) ->
    currentRowIndex (globals s) = length pre ->
    let out := advance k (Some path) s in
    disk (snd out) !! path = Some (stored_after content (pre ++ delivered (fst out))).
Proof.
  intros Hp. induction k as [|k IH]; intros s pre Hd Hc; cbn zeta.
  - cbn. rewrite app_nil_r. exact Hd.
  - assert (Hlen : length (stored_after content pre) = length content)
      by apply length_imap.
    cbn [advance].
    destruct (Nat.leb_spec (length content) (length pre)) as [Hle|Hlt].
    + assert (Hn : next (Some path) s = (Done, s)).
      { unfold next, loadExcelData. rewrite Hp, Hd. cbn [default id].
        rewrite Hlen, Hc.
        destruct (Nat.leb_spec (length content) (length pre)); [reflexivity|lia]. }
      rewrite Hn. specialize (IH s pre Hd Hc). cbn zeta in IH.
      destruct (advance k (Some path) s) as [rs s2]. exact IH.
    + destruct (lookup_lt_is_Some_2 content (length pre) Hlt) as [row Hrow].
      assert (Hget : stored_after content pre !! length pre = Some row).
      { unfold stored_after. rewrite list_lookup_imap, Hrow. cbn.
        rewrite lookup_ge_None_2 by lia. reflexivity. }
      destruct (processRowData_counter (globals s) (cells row))
        as (p & g1 & Hrun & _ & _ & _ & Hi).
      assert (Hn : exists s1, next (Some path) s = (Data p, s1)
                     /\ disk s1 !! path = Some (stored_after content (pre ++ [p]))
                     /\ currentRowIndex (globals s1) = length (pre ++ [p])).
      { unfold next, loadExcelData. rewrite Hp, Hd. cbn [default id].
        rewrite Hlen, Hc.
        destruct (Nat.leb_spec (length content) (length pre)); [lia|].
        rewrite Hget, Hrun. eexists. split; [reflexivity|]. split.
        - cbn [disk]. unfold appendProcessedData. rewrite Hd, lookup_insert_eq.
          rewrite Hi, Hc. f_equal. apply stored_after_step.
        - cbn. rewrite length_app, Hi, Hc. cbn. lia. }
      destruct Hn as (s1 & -> & Hd1 & Hc1).
      specialize (IH s1 (pre ++ [p])%list Hd1 Hc1). cbn zeta in IH.
      destruct (advance k (Some path) s1) as [rs s2].
      cbn [fst snd] in *. unfold delivered in *. cbn [omap].
      rewrite <- app_assoc in IH. exact IH.
Qed.

(** X4: the annotations in the stored sheet lag one row behind.  After
    [K] advances on a freshly uploaded file, stored row [j] carries the
    columns derived for row [j + 1] once that row has been delivered, and
    is as uploaded otherwise; so the first advance writes nothing, and the
    last row of the file is never annotated. *)
Theorem stored_rows_lag_by_one (f : UploadedFile) (s : Server) (K : nat) :
  let path := "uploads/" ++ name f in
  let out := advance K (Some path) (snd (upload (Some f) true s)) in
  exists data,
    disk (snd out) !! path = Some data
    /\ length data = length (content f)
    /\ length (delivered (fst out)) = Nat.min K (length (content f))
    /\ (forall j, data !! j =
                  match delivered (fst out) !! S j, content f !! j with
                  | Some p, Some row => Some (spread row p)
                  | _, stored => stored
                  end)
    /\ data !! (length (content f) - 1)%nat = content f !! (length (content f) - 1)%nat.
Proof.
  intros path out.
  assert (Hd : disk (snd out) !! path
               = Some (stored_after (content f) ([] ++ delivered (fst out)))).
  { apply (advance_stores path (content f) K eq_refl).
    - cbn. rewrite lookup_insert_eq. unfold stored_after. f_equal.
      apply list_eq. intros j. rewrite list_lookup_imap.
      destruct (content f !! j); reflexivity.
    - reflexivity. }
  cbn [app] in Hd.
  assert (Hlen : length (delivered (fst out)) = Nat.min K (length (content f))).
  { destruct (upload_in_step f s) as [H0 Hc0].
    destruct (advance_replays path eq_refl _ K _ H0) as (ps & g' & s' & Hps & Hadv & _).
    unfold out. fold path in Hadv. rewrite Hadv. cbn [fst]. rewrite delivered_replay.
    destruct (process_rows_total
                (take K (drop (currentRowIndex (globals (snd (upload (Some f) true s))))
                              (dataset_rows (content f))))
                (globals (snd (upload (Some f) true s)))) as (ps' & g'' & Hps' & Hl & _).
    rewrite Hps in Hps'. injection Hps' as <- <-. rewrite Hl, Hc0, drop_0, length_take.
    unfold dataset_rows. rewrite length_map. reflexivity. }
  assert (Hall : forall j, stored_after (content f) (delivered (fst out)) !! j =
                    match delivered (fst out) !! S j, content f !! j with
                    | Some p, Some row => Some (spread row p)
                    | _, stored => stored
                    end).
  { intros j. unfold stored_after. rewrite list_lookup_imap.
    destruct (content f !! j) as [row|]; cbn;
      destruct (delivered (fst out) !! S j); reflexivity. }
  eexists. split; [exact Hd|]. split; [apply length_imap|]. split; [exact Hlen|].
  split; [exact Hall|].
  rewrite Hall. rewrite lookup_ge_None_2; [reflexivity|]. lia.
Qed.

(** ** What the counter counts *)

Lemma rule_a_iff (r : RawRow) (ps : option PowerSource) :
  battery_rule r ps = RuleA <-> uses_battery ps = true.
Proof.
  unfold battery_rule. destruct (uses_battery ps); [split; reflexivity|].
  repeat match goal with |- context [if ?b then _ else _] => destruct b end;
    split; discriminate.
Qed.

Lemma process_rows_counts (rows : list RawRow) (g : Globals) :
  exists ps g', process_rows g rows = Normal (ps, g')
    /\ batteryDischargeCycles g'
       = batteryDischargeCycles g + battery_starts (lastBatteryAction g) ps
    /\ 0 <= battery_starts (lastBatteryAction g) ps
       <= discharge_runs (lastBatteryAction g) (map battery_action ps)
    /\ 2 * battery_starts (lastBatteryAction g) ps
       <= Z.of_nat (length rows)
          + (if is_discharging (lastBatteryAction g) then 0 else 1).
Proof.
  revert g. induction rows as [|r rows IH]; intros g; cbn [process_rows].
  - eexists _, _. split; [reflexivity|]. cbn.
    destruct (is_discharging (lastBatteryAction g)); lia.
  - rewrite processRowData_unfold. cbn [Js.bind].
    match goal with |- context [process_rows ?g1 rows] =>
      destruct (IH g1) as (ps & g' & -> & Hy & Hr & Hb) end.
    cbn [Js.bind]. eexists _, _. split; [reflexivity|].
    cbn [batteryDischargeCycles lastBatteryAction] in Hy, Hr, Hb.
    cbn [battery_starts discharge_runs map power_source battery_action length].
    set (ps0 := fst (classify_power_source r)) in *.
    rewrite cycles_after_rule_a in Hy.
    destruct (uses_battery ps0) eqn:Hu.
    + rewrite (proj2 (rule_a_iff r ps0) Hu) in *.
      cbn [rule_action is_discharging andb] in *.
      destruct (is_discharging (lastBatteryAction g)); cbn [negb] in *; lia.
    + assert (Hn : battery_rule r ps0 <> RuleA)
        by (intros E; apply rule_a_iff in E; congruence).
      destruct (battery_rule r ps0) eqn:Hk; try congruence;
        cbn [rule_action is_discharging andb] in *;
        destruct (is_discharging (lastBatteryAction g)); cbn [negb] in *; lia.
Qed.

(** X5: what [batteryDischargeCycles] counts.  After a file is uploaded
    and [K] rows are requested, the counter is the number of delivered rows
    whose power source is Battery or Solar+Battery and whose previous
    action was not Discharging, the action before the first row being the
    one left by whatever ran before the upload.  It is never more than the
    number of runs of Discharging that start in those rows. *)
Theorem counter_counts_battery_starts (f : UploadedFile) (s : Server) (K : nat) :
  let out := advance K (Some ("uploads/" ++ name f)) (snd (upload (Some f) true s)) in
  let prev := lastBatteryAction (globals s) in
  batteryDischargeCycles (globals (snd out)) = battery_starts prev (delivered (fst out))
  /\ battery_starts prev (delivered (fst out))
     <= discharge_runs prev (map battery_action (delivered (fst out))).
Proof.
  intros out prev.
  destruct (upload_in_step f s) as [H0 Hc0].
  destruct (advance_replays ("uploads/" ++ name f) eq_refl _ K _ H0) as (ps & g' & s' & Hps & Hadv & Hst & _).
  unfold out. rewrite Hadv. cbn [fst snd]. rewrite delivered_replay.
  injection Hst as _ -> _.
  match type of Hps with process_rows ?g ?rows = _ =>
    destruct (process_rows_counts rows g) as (ps' & g'' & Hps' & Hy & Hr & _) end.
  rewrite Hps in Hps'. injection Hps' as <- <-.
  cbn in Hy, Hr. fold prev in Hy, Hr. split; lia.
Qed.

(** X6: two rows in a row cannot both start a cycle: over the first [K]
    rows of a session the counter is at most [(K + 1) / 2], whatever the
    rows hold. *)
Theorem counter_at_most_every_other_row (f : UploadedFile) (s : Server) (K : nat) :
  let out := advance K (Some ("uploads/" ++ name f)) (snd (upload (Some f) true s)) in
  0 <= batteryDischargeCycles (globals (snd out))
  /\ 2 * batteryDischargeCycles (globals (snd out)) <= Z.of_nat K + 1.
Proof.
  intros out.
  destruct (upload_in_step f s) as [H0 Hc0].
  destruct (advance_replays ("uploads/" ++ name f) eq_refl _ K _ H0) as (ps & g' & s' & Hps & Hadv & Hst & _).
  unfold out. rewrite Hadv. cbn [snd]. injection Hst as _ -> _.
  match type of Hps with process_rows ?g ?rows = _ =>
    destruct (process_rows_counts rows g) as (ps' & g'' & Hps' & Hy & Hr & Hb);
    assert (Hl : (length rows <= K)%nat) by (rewrite length_take; lia);
    set (n := length rows) in Hb, Hl; clearbody n
  end.
  rewrite Hps in Hps'. injection Hps' as <- <-.
  cbn in Hy, Hr, Hb. destruct (is_discharging _) in Hb; lia.
Qed.

(** ** The battery action, read off the row *)

Lemma num_lt_asym (x y : num) : Num.lt y x = Some true -> Num.lt x y = Some false.
Proof.
  destruct x as [| | |a], y as [| | |b]; cbn [Num.lt];
    try discriminate; try reflexivity.
  rewrite <- (Qcompare_antisym a b).
  destruct (a ?= b)%Q; cbn [CompOpp]; (discriminate || reflexivity).
Qed.

(** [a > b] implies [a >= b], also for two strings. *)
Lemma op_gt_ge (a b : value) : op_gt a b = true -> op_ge a b = true.
Proof.
  unfold op_gt, op_ge.
  assert (H : less_than b a = Some true -> less_than a b = Some false).
  { unfold less_than.
    destruct a as [| |x|x|x], b as [| |y|y|y]; try apply num_lt_asym.
    unfold String.ltb. rewrite (String.compare_antisym x y).
    destruct (String.compare y x); cbn [CompOpp]; (discriminate || reflexivity). }
  destruct (less_than b a) as [[]|]; try discriminate.
  intros _. rewrite H; reflexivity.
Qed.

(** The power source in terms of the row. *)
Lemma power_source_cases (r : RawRow) :
  fst (classify_power_source r) =
  if is_normal (grid_status r) then
    if to_boolean (is_daytime r) then
      if op_ge (solar_input_watts r) (household_power_demand_watts r)
      then Some Solar else Some SolarGrid
    else Some Grid
  else if is_degraded (grid_status r) then
    if to_boolean (is_daytime r) then
      if op_ge (solar_input_watts r) (household_power_demand_watts r)
      then Some Solar else Some SolarBattery
    else Some Battery
  else None.
Proof.
  unfold classify_power_source.
  destruct (is_degraded (grid_status r)) eqn:Hdeg.
  - assert (Hoff : True) by exact I.
    repeat match goal with |- context [if ?b then _ else _] => destruct b end;
      reflexivity.
  - assert (Hoff : strict_eq (grid_status r) (JString "power off") = false).
    { unfold is_degraded in Hdeg. apply orb_false_iff in Hdeg. tauto. }
    rewrite Hoff.
    repeat match goal with |- context [if ?b then _ else _] => destruct b end;
      reflexivity.
Qed.

(** X7: when the battery charges.  The action is Charging exactly when
    the battery level compares below 100 and either the grid is normal or
    it is daytime with solar strictly above demand; this includes daytime
    rows whose grid status is not recognised and that have no power
    source.  A battery at or above 100 is never charged. *)
Theorem charging_iff (g : Globals) (r : RawRow) :
  exists p g', processRowData g r = Normal (p, g')
    /\ (battery_action p = Charging
        <-> op_lt (battery_percent r) (JNumber (Fin 100)) = true
            /\ (is_normal (grid_status r) = true
                \/ (to_boolean (is_daytime r) = true
                    /\ op_gt (solar_input_watts r) (household_power_demand_watts r) = true))).
Proof.
  rewrite processRowData_unfold. eexists _, _. split; [reflexivity|].
  cbn [battery_action]. unfold battery_rule. rewrite power_source_cases.
  pose proof (normal_excludes_degraded (grid_status r)) as Hex.
  pose proof (op_gt_ge (solar_input_watts r) (household_power_demand_watts r)) as Hge.
  destruct (is_normal (grid_status r));
    destruct (is_degraded (grid_status r));
    try (specialize (Hex eq_refl); discriminate);
    destruct (to_boolean (is_daytime r));
    destruct (op_gt (solar_input_watts r) (household_power_demand_watts r));
    destruct (op_ge (solar_input_watts r) (household_power_demand_watts r));
    try (specialize (Hge eq_refl); discriminate);
    destruct (op_lt (battery_percent r) (JNumber (Fin 100)));
    destruct (op_gt (battery_percent r) (JNumber (Fin 28)));
    cbn; (split; [intros H; try discriminate H; tauto
                 | intros [H1 [H2|[H2 H3]]]; congruence]).
Qed.

(** X8: when the battery discharges.  The action is Discharging exactly
    when the grid status is one of the two degraded spellings the server
    knows and either it is night, or solar does not cover the demand, or
    the row is not charging and the battery level compares above 28.  On a
    normal grid, or with a status the server does not recognise, the
    battery never discharges. *)
Theorem discharging_iff (g : Globals) (r : RawRow) :
  exists p g', processRowData g r = Normal (p, g')
    /\ (battery_action p = Discharging
        <-> is_degraded (grid_status r) = true
            /\ (to_boolean (is_daytime r) = false
                \/ op_ge (solar_input_watts r) (household_power_demand_watts r) = false
                \/ ((op_gt (solar_input_watts r) (household_power_demand_watts r)
                     && op_lt (battery_percent r) (JNumber (Fin 100))) = false
                    /\ op_gt (battery_percent r) (JNumber (Fin 28)) = true))).
Proof.
  rewrite processRowData_unfold. eexists _, _. split; [reflexivity|].
  cbn [battery_action]. unfold battery_rule. rewrite power_source_cases.
  pose proof (normal_excludes_degraded (grid_status r)) as Hex.
  destruct (is_normal (grid_status r));
    destruct (is_degraded (grid_status r));
    try (specialize (Hex eq_refl); discriminate);
    destruct (to_boolean (is_daytime r));
    destruct (op_gt (solar_input_watts r) (household_power_demand_watts r));
    destruct (op_ge (solar_input_watts r) (household_power_demand_watts r));
    destruct (op_lt (battery_percent r) (JNumber (Fin 100)));
    destruct (op_gt (battery_percent r) (JNumber (Fin 28)));
    cbn; (split; [intros H; try discriminate H; tauto
                 | intros [H1 [H2|[H2|[H2 H3]]]]; congruence]).
Qed.

Lemma unclassified_row (g : Globals) (r : RawRow) :
  exists p g', processRowData g r = Normal (p, g')
    /\ (power_source p = None
        <-> is_normal (grid_status r) = false /\ is_degraded (grid_status r) = false)
    /\ (power_source p = None ->
        solar_contribution p = Fin 0
        /\ grid_contribution p = Fin 0
        /\ battery_contribution p = Fin 0
        /\ alerts p = String.concat ", " (low_battery_alert (battery_percent r))
        /\ battery_action p <> Discharging).
Proof.
  rewrite processRowData_unfold. eexists _, _. split; [reflexivity|].
  cbn [power_source solar_contribution grid_contribution battery_contribution
       alerts battery_action].
  assert (Hiff : fst (classify_power_source r) = None
                 <-> is_normal (grid_status r) = false
                     /\ is_degraded (grid_status r) = false).
  { rewrite power_source_cases.
    repeat match goal with |- context [if ?b then _ else _] => destruct b end;
      (split; [intros H; try discriminate H; auto
              |intros [? ?]; try discriminate; auto]). }
  split; [exact Hiff|]. intros Hnone.
  pose proof (proj1 Hiff Hnone) as [Hn Hd].
  assert (Hal : snd (classify_power_source r) = []).
  { unfold classify_power_source. rewrite Hn, Hd.
    assert (Hoff : strict_eq (grid_status r) (JString "power off") = false).
    { unfold is_degraded in Hd. apply orb_false_iff in Hd. tauto. }
    rewrite Hoff. destruct (to_boolean (is_daytime r)); reflexivity. }
  rewrite Hnone, Hal. cbn [contributions fst snd app].
  repeat split.
  unfold battery_rule. rewrite Hn, Hd. cbn.
  repeat match goal with |- context [if ?b then _ else _] => destruct b end;
    discriminate.
Qed.

(** X9: a row is left without a power source exactly when its grid status
    is neither ["normal"] nor one of the two degraded spellings.  Such a
    row still gets a total consumption, but none of it is attributed (the
    three contributions are 0), its only possible alert is the low-battery
    one, and its battery never discharges. *)
Theorem unclassified_iff (g : Globals) (r : RawRow) :
  exists p g', processRowData g r = Normal (p, g')
    /\ (power_source p = None
        <-> is_normal (grid_status r) = false /\ is_degraded (grid_status r) = false)
    /\ (power_source p = None ->
        solar_contribution p = Fin 0
        /\ grid_contribution p = Fin 0
        /\ battery_contribution p = Fin 0
        /\ alerts p = String.concat ", " (low_battery_alert (battery_percent r))
        /\ battery_action p <> Discharging).
Proof. exact (unclassified_row g r). Qed.


Lemma unclassified_iff_witness :
  let r := mk_row true "brownout" 3000 2000 false (num_value 20) in
  exists p g', processRowData initial_globals r = Normal (p, g')
    /\ power_source p = None
    /\ alerts p = "Battery Low: 20%"
    /\ battery_action p = Charging.
Proof.
  intros r. destruct (unclassified_iff initial_globals r) as (p & g' & Hp & Hiff & Hcons).
  exists p, g'. split; [exact Hp|].
  assert (Hnone : power_source p = None) by (apply Hiff; split; reflexivity).
  split; [exact Hnone|]. destruct (Hcons Hnone) as (_ & _ & _ & Hal & _).
  split; [exact Hal|].
  rewrite processRowData_unfold in Hp. injection Hp as <- _. reflexivity.
Defined.

(** ** Energy figures on numeric cells *)




(** *** A demand that is not positive *)

Section BackupTime.

Import PrimFloat SpecFloat FloatOps FloatAxioms.
#[local] Set Warnings "-inexact-float".

Lemma Prim2SF_1000 : exists m e, Prim2SF 1000%float = S754_finite false m e.
Proof. eexists _, _. vm_compute. reflexivity. Qed.

(** Rounding keeps the sign. *)
Lemma round_sign (s : bool) (mz ez : Z) (lz : location) :
  match binary_round_aux prec emax s mz ez lz with
  | S754_zero s' | S754_infinity s' | S754_finite s' _ _ => s' = s
  | S754_nan => True
  end.
Proof.
  unfold binary_round_aux.
  destruct (shr_fexp prec emax mz ez lz) as [mrs' e'].
  destruct (shr_fexp prec emax _ e' loc_Exact) as [mrs'' e''].
  destruct (shr_m mrs''); [reflexivity| |exact I].
  destruct (Z.leb e'' (Z.sub emax prec)); reflexivity.
Qed.

(** [demand / 1000 > 0] fails for a demand that is zero, negative or
    NaN. *)
Lemma no_load (demand : float) :
  (demand <=? 0)%float = true \/ is_nan demand = true ->
  (0 <? demand / 1000)%float = false.
Proof.
  rewrite ltb_spec, div_spec, leb_spec.
  change (Prim2SF 0%float) with (S754_zero false).
  unfold is_nan. rewrite FloatAxioms.eqb_spec.
  destruct Prim2SF_1000 as (m1 & e1 & ->).
  destruct (Prim2SF demand) as [s|s| |s m e].
  - intros _. destruct s; reflexivity.
  - intros [H|H]; destruct s; try reflexivity; cbn in H; discriminate H.
  - intros _. reflexivity.
  - intros [H|H].
    + destruct s; [|discriminate H].
      unfold SF64div, SFdiv.
      destruct (SFdiv_core_binary prec emax (Zpos m) e (Zpos m1) e1) as [[mz ez] lz].
      pose proof (round_sign (xorb true false) mz ez lz) as Hs.
      destruct (binary_round_aux prec emax (xorb true false) mz ez lz) as [s'|s'| |s' m' e'];
        cbn in Hs; subst; reflexivity.
    + exfalso. rewrite negb_true_iff in H.
      unfold SFeqb in H. cbn [SFcompare] in H.
      destruct s; rewrite Z.compare_refl, Pos.compare_cont_refl in H; discriminate H.
Qed.

(** X11: the backup time never comes from a division by zero.  A demand
    that converts to zero, to a negative number, to minus infinity or to
    NaN gives a backup time of exactly 0, whatever the battery cell
    holds; in double precision as well, for every demand that is not
    above zero or is NaN.  With a positive demand the figure is not
    bounded: a battery at 80 and a demand of 1e-320 W overflow to
    Infinity, and for the smallest positive demand the load underflows to
    zero and the figure is 0. *)
Theorem backup_time_zero_without_load :
  (forall g r,
      match to_number (household_power_demand_watts r) with
      | Fin d => (d <= 0)%Q
      | PInf => False
      | NaN | NInf => True
      end ->
      exists p g', processRowData g r = Normal (p, g')
        /\ estimated_battery_backup_time p = Fin 0)
  /\ (forall battery demand : float,
        (demand <=? 0)%float = true \/ is_nan demand = true ->
        Double.backup_time battery demand = 0%float)
  /\ Double.backup_time 80 1e-320 = infinity
  /\ ((0 <? 0x1p-1074)%float = true /\ Double.backup_time 80 0x1p-1074 = 0%float).
Proof.
  split; [|split; [|split]].
  - intros g r Hd. rewrite processRowData_unfold. eexists _, _. split; [reflexivity|].
    cbn [estimated_battery_backup_time]. unfold backup_time.
    destruct (to_number (household_power_demand_watts r)) as [| | |d]; try reflexivity;
      [contradiction|].
    cbn [Num.div]. change (Qeq_bool 1000 0) with false. cbn iota.
    unfold Num.ltb. cbn [Num.lt fin].
    assert (E : (0 ?= Qred (d / 1000))%Q <> Lt).
    { intros E. apply Qlt_alt in E. rewrite Qred_correct in E.
      assert (d / 1000 <= 0)%Q
        by (unfold Qdiv; change (/ 1000)%Q with (1 # 1000)%Q; lra).
      lra. }
    destruct (0 ?= Qred (d / 1000))%Q; congruence.
  - intros battery demand H. unfold Double.backup_time. cbn zeta.
    rewrite (no_load demand H). reflexivity.
  - vm_compute. reflexivity.
  - split; vm_compute; reflexivity.
Qed.

(** A night row with no demand and a battery cell that is no number. *)
Lemma backup_time_zero_without_load_witness :
  let r := mk_row false "normal" 0 0 false (JString "n/a") in
  exists p g', processRowData initial_globals r = Normal (p, g')
    /\ estimated_battery_backup_time p = Fin 0.
Proof.
  intros r. apply (proj1 backup_time_zero_without_load initial_globals r). discriminate.
Defined.

End BackupTime.

(** * The dashboard against the server *)

(** X12: the badge colours of the power source.  The server spells the
    solar-and-battery source ["Solar+Battery"], the dashboard has a colour
    for ["Battery+Solar"]: for no row does the badge get that colour
    (pink), and the default colour (red) is shown exactly for the rows on
    Solar+Battery and for the rows without a power source. *)
Theorem power_source_badge (g : Globals) (r : RawRow) :
  exists p g', processRowData g r = Normal (p, g')
    /\ getPowerSourceColor (sent_power_source p) <> "bg-pink-500"
    /\ (getPowerSourceColor (sent_power_source p) = "bg-red-500"
        <-> power_source p = Some SolarBattery \/ power_source p = None).
Proof.
  rewrite processRowData_unfold. eexists _, _. split; [reflexivity|].
  unfold sent_power_source. cbn [power_source].
  destruct (fst (classify_power_source r)) as [[]|]; cbn;
    (split; [discriminate|]);
    (split; [intros H; try discriminate H; auto
            |intros [H|H]; try discriminate H; reflexivity]).
Qed.

Lemma strict_eq_string (v : value) (s : string) :
  strict_eq v (JString s) = true <-> v = JString s.
Proof.
  destruct v; cbn; try (split; discriminate).
  rewrite String.eqb_eq. split; congruence.
Qed.

(** X13: the dashboard and the server never agree that the grid is
    degraded.  A status the server treats as degraded gets the grey
    "unknown" badge; a status the dashboard colours as fluctuating (yellow)
    or off (red) leaves the row without a power source and without any
    grid alert on the server, the battery not discharging. *)
Theorem grid_badge_disagrees (g : Globals) (r : RawRow) :
  exists p g', processRowData g r = Normal (p, g')
    /\ (is_degraded (grid_status r) = true ->
        getGridStatusColor (json_cell (grid_status r)) = "bg-gray-500")
    /\ (getGridStatusColor (json_cell (grid_status r)) = "bg-yellow-500"
        \/ getGridStatusColor (json_cell (grid_status r)) = "bg-red-500" ->
        power_source p = None
        /\ battery_action p <> Discharging
        /\ alerts p = String.concat ", " (low_battery_alert (battery_percent r))).
Proof.
  destruct (unclassified_row g r) as (p & g' & Hp & Hiff & Hcons).
  exists p, g'. split; [exact Hp|]. split.
  - unfold is_degraded. intros H. apply orb_true_iff in H.
    destruct H as [H|H]; apply strict_eq_string in H; rewrite H; reflexivity.
  - intros Hcol.
    assert (Hv : grid_status r = JString "voltage_fluctuation"
                 \/ grid_status r = JString "power_off").
    { unfold getGridStatusColor in Hcol.
      destruct (grid_status r) as [| |b|n|s] eqn:E;
        try (cbn in Hcol; destruct Hcol; discriminate).
      - destruct n; cbn in Hcol; destruct Hcol; discriminate.
      - cbn [json_cell] in Hcol.
        destruct (strict_eq (JString s) (JString "normal"));
          [destruct Hcol; discriminate|].
        destruct (strict_eq (JString s) (JString "voltage_fluctuation")) eqn:E1;
          [apply strict_eq_string in E1; auto|].
        destruct (strict_eq (JString s) (JString "power_off")) eqn:E2;
          [apply strict_eq_string in E2; auto|].
        destruct Hcol; discriminate. }
    assert (Hnone : power_source p = None)
      by (apply Hiff; destruct Hv as [-> | ->]; split; reflexivity).
    destruct (Hcons Hnone) as (_ & _ & _ & Hal & Hact). auto.
Qed.

Lemma grid_badge_disagrees_witness :
  let r := mk_row false "power_off" 0 1500 true (num_value 50) in
  exists p g', processRowData initial_globals r = Normal (p, g')
    /\ getGridStatusColor (json_cell (grid_status r)) = "bg-red-500"
    /\ power_source p = None.
Proof.
  intros r. destruct (grid_badge_disagrees initial_globals r) as (p & g' & Hp & _ & H).
  exists p, g'. split; [exact Hp|]. split; [reflexivity|].
  apply H. right. reflexivity.
Defined.

(** ** Battery health and level *)



Lemma op_lt_mono (v : value) (a b : Q) :
  (a <= b)%Q ->
  op_lt v (JNumber (Fin a)) = true -> op_lt v (JNumber (Fin b)) = true.
Proof.
  intros Hab. unfold op_lt.
  assert (E : forall c, less_than v (JNumber (Fin c)) = Num.lt (to_number v) (Fin c))
    by (intros c; destruct v; reflexivity).
  rewrite !E. destruct (to_number v) as [| | |x]; cbn [Num.lt]; try discriminate; auto.
  destruct (x ?= a)%Q eqn:C; try discriminate. intros _.
  apply (proj2 (Qlt_alt _ _)) in C.
  assert (C' : (x < b)%Q) by lra.
  apply (proj1 (Qlt_alt _ _)) in C'. rewrite C'. reflexivity.
Qed.

(** X15: the battery bar and the low-battery alert use different
    thresholds (20 and 50 against 28) but do not contradict each other: a
    green bar never comes with the alert, and a red bar always does when
    the cell reaches the dashboard as it is (anything but a NaN or
    infinite number, which is sent as [null]). *)
Theorem battery_bar_and_alert (g : Globals) (r : RawRow) :
  exists p g', processRowData g r = Normal (p, g')
    /\ alerts p = String.concat ", " (pushed_alerts r)
    /\ (battery_level_class (json_cell (battery_percent r)) = "bg-green-100" ->
        low_battery_alert (battery_percent r) = []
        /\ contains "Battery Low" (alerts p) = false)
    /\ (json_cell (battery_percent r) = battery_percent r ->
        battery_level_class (json_cell (battery_percent r)) = "bg-red-100" ->
        pushed_alerts r
        = (snd (classify_power_source r)
           ++ [("Battery Low: " ++ Js.to_string (battery_percent r) ++ "%")%string])%list).
Proof.
  rewrite processRowData_unfold. eexists _, _. split; [reflexivity|].
  cbn [alerts]. split; [reflexivity|]. unfold battery_level_class, low_battery_alert.
  split.
  - intros Hgreen.
    assert (Hno : op_lt (battery_percent r) (JNumber (Fin 28)) = false).
    { destruct (op_lt (battery_percent r) (JNumber (Fin 28))) eqn:E; [|reflexivity].
      assert (E50 : op_lt (battery_percent r) (JNumber (Fin 50)) = true)
        by (apply (op_lt_mono _ 28 50); [discriminate|exact E]).
      destruct (battery_percent r) as [| |b|[| | |q]|s]; cbn [json_cell json_number] in Hgreen;
        try (rewrite E50 in Hgreen;
             destruct (op_lt _ (JNumber (Fin 20))); discriminate);
        try discriminate E; discriminate Hgreen. }
    rewrite Hno. split; [reflexivity|]. rewrite app_nil_r.
    apply classification_alerts_plain.
  - intros Hsame Hred. rewrite Hsame in Hred.
    assert (H20 : op_lt (battery_percent r) (JNumber (Fin 20)) = true).
    { destruct (op_lt (battery_percent r) (JNumber (Fin 20))); [reflexivity|].
      destruct (op_lt (battery_percent r) (JNumber (Fin 50))); discriminate. }
    unfold pushed_alerts, low_battery_alert.
    rewrite (op_lt_mono _ 20 28); [reflexivity|discriminate|exact H20].
Qed.

Lemma battery_bar_and_alert_witness :
  let r := mk_row false "normal" 0 1500 false (num_value 15) in
  exists p g', processRowData initial_globals r = Normal (p, g')
    /\ battery_level_class (json_cell (battery_percent r)) = "bg-red-100"
    /\ pushed_alerts r = ["Battery Low: 15%"].
Proof.
  intros r. destruct (battery_bar_and_alert initial_globals r) as (p & g' & Hp & _ & _ & H).
  exists p, g'. split; [exact Hp|]. split; [reflexivity|].
  apply H; reflexivity.
Defined.

(** ** The alerts, from the server's [join] to the dashboard's [split] *)

Lemma list_ascii_app (a b : string) :
  list_ascii_of_string (a ++ b)
  = (list_ascii_of_string a ++ list_ascii_of_string b)%list.
Proof.
  induction a as [|c a IH]; [reflexivity|].
  change (String c a ++ b) with (String c (a ++ b)).
  cbn [list_ascii_of_string app]. f_equal. exact IH.
Qed.

Lemma comma_free_app (a b : list ascii) :
  comma_free a -> comma_free b -> comma_free (a ++ b).
Proof. unfold comma_free. intros. apply Forall_app. auto. Qed.

Lemma comma_free_check (l : list ascii) :
  forallb (fun c => negb (Ascii.eqb c ",")) l = true -> comma_free l.
Proof.
  unfold comma_free. induction l as [|c l IH]; cbn; intros H; constructor.
  - apply andb_true_iff in H as [H _]. apply negb_true_iff, Ascii.eqb_neq in H. exact H.
  - apply IH. apply andb_true_iff in H. tauto.
Qed.

Lemma split_last_piece (x cur : list ascii) :
  comma_free x ->
  split_comma_space cur x = [string_of_list_ascii (rev cur ++ x)%list].
Proof.
  revert cur. induction x as [|c x IH]; intros cur Hx; cbn [split_comma_space].
  - rewrite app_nil_r. reflexivity.
  - inversion Hx as [|? ? Hc Hx']; subst.
    apply Ascii.eqb_neq in Hc. rewrite Hc. cbn [andb].
    assert (E : split_comma_space (c :: cur) x
                = [string_of_list_ascii (rev cur ++ c :: x)%list]).
    { rewrite (IH (c :: cur) Hx'). cbn [rev]. rewrite <- app_assoc. reflexivity. }
    destruct x; exact E.
Qed.

Lemma split_piece (x cur rest : list ascii) :
  comma_free x ->
  split_comma_space cur (x ++ ","%char :: " "%char :: rest)%list
  = string_of_list_ascii (rev cur ++ x)%list :: split_comma_space [] rest.
Proof.
  revert cur. induction x as [|c x IH]; intros cur Hx.
  - cbn. rewrite app_nil_r. reflexivity.
  - inversion Hx as [|? ? Hc Hx']; subst.
    apply Ascii.eqb_neq in Hc.
    assert (E : split_comma_space (c :: cur) (x ++ ","%char :: " "%char :: rest)%list
                = string_of_list_ascii (rev cur ++ c :: x)%list :: split_comma_space [] rest).
    { rewrite (IH (c :: cur) Hx'). cbn [rev]. rewrite <- app_assoc. reflexivity. }
    cbn [app split_comma_space]. rewrite Hc. cbn [andb].
    destruct x; exact E.
Qed.

Lemma split_concat (l : list string) :
  Forall no_comma l -> l <> [] -> split (String.concat ", " l) = l.
Proof.
  unfold split. induction l as [|x xs IH]; intros Hl Hne; [congruence|].
  inversion Hl as [|? ? Hx Hxs]; subst.
  destruct xs as [|y ys].
  - cbn [String.concat]. rewrite (split_last_piece _ [] Hx). cbn [rev app].
    rewrite string_of_list_ascii_of_string. reflexivity.
  - change (String.concat ", " (x :: y :: ys))
      with (x ++ ", " ++ String.concat ", " (y :: ys)).
    rewrite list_ascii_app.
    change (list_ascii_of_string (", " ++ String.concat ", " (y :: ys)))
      with (","%char :: " "%char :: list_ascii_of_string (String.concat ", " (y :: ys))).
    rewrite (split_piece _ [] _ Hx). cbn [rev app].
    rewrite string_of_list_ascii_of_string. f_equal.
    apply IH; [exact Hxs|discriminate].
Qed.

Lemma alertArray_concat (l : list string) :
  Forall plain_alert l -> alertArray (String.concat ", " l) = l.
Proof.
  intros Hl. unfold alertArray. destruct l as [|x xs]; [reflexivity|].
  assert (Hne : nonempty (String.concat ", " (x :: xs)) = true).
  { inversion Hl as [|? ? [_ Hx] _]; subst.
    destruct x as [|c x]; [discriminate|]. destruct xs; reflexivity. }
  rewrite Hne, split_concat; [| |discriminate].
  - clear Hne. induction Hl as [|a l [_ Ha] _ IH]; [reflexivity|].
    rewrite filter_cons_True by exact Ha. f_equal. exact IH.
  - eapply Forall_impl; [exact Hl|]. intros a [Ha _]. exact Ha.
Qed.

(** *** No alert holds a comma *)

Lemma plain_literal (a : string) :
  forallb (fun c => negb (Ascii.eqb c ",")) (list_ascii_of_string a) = true ->
  nonempty a = true -> plain_alert a.
Proof. intros H1 H2. split; [apply comma_free_check, H1|exact H2]. Qed.

Lemma classification_alerts_plain_each (r : RawRow) :
  Forall plain_alert (snd (classify_power_source r)).
Proof.
  unfold classify_power_source, when.
  repeat match goal with |- context [if ?b then _ else _] => destruct b end;
    cbn [snd app];
    repeat (apply List.Forall_cons; [apply plain_literal; reflexivity|]);
    apply List.Forall_nil.
Qed.

Lemma digit_not_comma (base : Z) (c : ascii) (d : Z) :
  digit_value base c = Some d -> c <> ","%char.
Proof. intros H ->. cbn in H. discriminate. Qed.

Lemma digits_split (base : Z) (l : list ascii) (acc : Z) (n : nat) :
  exists pre, l = (pre ++ snd (digits base l acc n))%list /\ comma_free pre.
Proof.
  revert acc n. induction l as [|c l IH]; intros acc n; cbn [digits].
  - exists []. split; [reflexivity|constructor].
  - destruct (digit_value base c) as [d|] eqn:Hc.
    + destruct (IH (acc * base + d) (S n)) as (pre & E & Hpre).
      exists (c :: pre). split; [cbn; f_equal; exact E|].
      constructor; [exact (digit_not_comma _ _ _ Hc)|exact Hpre].
    + exists []. split; [reflexivity|constructor].
Qed.

Lemma exponent_split (l : list ascii) :
  exists pre, l = (pre ++ snd (exponent l))%list /\ comma_free pre.
Proof.
  assert (Hnil : exists pre, l = (pre ++ l)%list /\ comma_free pre)
    by (exists []; split; [reflexivity|constructor]).
  destruct l as [|c l1]; [exact Hnil|]. cbn [exponent].
  destruct (Ascii.eqb c "e" || Ascii.eqb c "E") eqn:He; [|exact Hnil].
  assert (Hc : c <> ","%char) by (intros ->; discriminate He).
  assert (Htail : forall (neg : bool) (sp l2 : list ascii),
             l1 = (sp ++ l2)%list -> comma_free sp ->
             exists pre,
               c :: l1
               = (pre ++ snd (match digits 10 l2 0 0 with
                              | (e, O, rest) => (0, c :: l1)
                              | (e, S _, rest) => (if neg then - e else e, rest)
                              end))%list
               /\ comma_free pre).
  { intros neg sp l2 El Hsp.
    destruct (digits_split 10 l2 0 0) as (pre & E & Hpre).
    destruct (digits 10 l2 0 0) as [[e cnt] rest]. cbn [snd] in E.
    destruct cnt; [exact Hnil|]. cbn [snd].
    exists (c :: sp ++ pre)%list. split.
    - cbn. f_equal. rewrite <- app_assoc, <- E. exact El.
    - constructor; [exact Hc|]. apply comma_free_app; assumption. }
  destruct l1 as [|s l2].
  - apply (Htail false [] []); [reflexivity|constructor].
  - destruct (Ascii.eqb s "-") eqn:Hm.
    + apply Ascii.eqb_eq in Hm. subst s.
      apply (Htail true ["-"%char] l2); [reflexivity|].
      constructor; [discriminate|constructor].
    + destruct (Ascii.eqb s "+") eqn:Hp.
      * apply Ascii.eqb_eq in Hp. subst s.
        apply (Htail false ["+"%char] l2); [reflexivity|].
        constructor; [discriminate|constructor].
      * apply (Htail false [] (s :: l2)); [reflexivity|constructor].
Qed.

Lemma strip_prefix_eq (p l rest : list ascii) :
  strip_prefix p l = Some rest -> l = (p ++ rest)%list.
Proof.
  revert l. induction p as [|a p IH]; intros l; cbn.
  - intros [= ->]. reflexivity.
  - destruct l as [|b l]; [discriminate|].
    destruct (Ascii.eqb a b) eqn:E; [|discriminate].
    apply Ascii.eqb_eq in E. subst. intros H. f_equal. apply IH, H.
Qed.

Lemma unsigned_split (l rest : list ascii) (v : num) :
  unsigned_decimal l = Some (v, rest) ->
  exists pre, l = (pre ++ rest)%list /\ comma_free pre.
Proof.
  unfold unsigned_decimal.
  destruct (strip_prefix _ l) as [r0|] eqn:Hinf.
  { intros [= _ <-]. apply strip_prefix_eq in Hinf. eexists. split; [exact Hinf|].
    apply comma_free_check. reflexivity. }
  destruct (digits_split 10 l 0 0) as (pre1 & E1 & H1).
  destruct (digits 10 l 0 0) as [[ip n1] r1]. cbn [snd] in E1.
  assert (Hexp : forall (m : Q) (r : list ascii) (pre : list ascii),
             l = (pre ++ r)%list -> comma_free pre ->
             (let '(e, rest0) := exponent r in
              Some (fin (m * Qpower (inject_Z 10) e), rest0)) = Some (v, rest) ->
             exists pre', l = (pre' ++ rest)%list /\ comma_free pre').
  { intros m r pre El Hp. destruct (exponent_split r) as (pe & Ee & He).
    destruct (exponent r) as [e rest0]. cbn [snd] in Ee. intros [= _ <-].
    exists (pre ++ pe)%list. split; [rewrite <- app_assoc, <- Ee; exact El|].
    apply comma_free_app; assumption. }
  destruct r1 as [|c r2].
  - destruct n1; [discriminate|]. apply (Hexp _ [] pre1); assumption.
  - destruct (Ascii.eqb c ".") eqn:Hdot.
    + apply Ascii.eqb_eq in Hdot. subst c.
      destruct (digits_split 10 r2 0 0) as (pre2 & E2 & H2).
      destruct (digits 10 r2 0 0) as [[fp n2] r3]. cbn [snd] in E2.
      assert (El : l = ((pre1 ++ "."%char :: pre2) ++ r3)%list).
      { rewrite E1. rewrite <- app_assoc. cbn. rewrite <- E2. reflexivity. }
      assert (Hp : comma_free (pre1 ++ "."%char :: pre2)).
      { apply comma_free_app; [exact H1|]. constructor; [discriminate|exact H2]. }
      destruct n1, n2; try discriminate; apply (Hexp _ r3 _ El Hp).
    + destruct n1; [discriminate|]. apply (Hexp _ (c :: r2) pre1); assumption.
Qed.

Lemma signed_split (l rest : list ascii) (v : num) :
  signed_decimal l = Some (v, rest) ->
  exists pre, l = (pre ++ rest)%list /\ comma_free pre.
Proof.
  destruct l as [|c l]; cbn [signed_decimal]; [discriminate|].
  destruct (Ascii.eqb c "-") eqn:Hm.
  { apply Ascii.eqb_eq in Hm. subst c.
    destruct (unsigned_decimal l) as [[u r]|] eqn:E; [|discriminate].
    intros [= _ <-]. apply unsigned_split in E as (pre & -> & Hp).
    exists ("-"%char :: pre). split; [reflexivity|]. constructor; [discriminate|exact Hp]. }
  destruct (Ascii.eqb c "+") eqn:Hp.
  { apply Ascii.eqb_eq in Hp. subst c. intros E.
    apply unsigned_split in E as (pre & -> & Hpre).
    exists ("+"%char :: pre). split; [reflexivity|]. constructor; [discriminate|exact Hpre]. }
  apply unsigned_split.
Qed.

Lemma radix_literal_comma_free (l : list ascii) (v : num) :
  radix_literal l = Some v -> comma_free l.
Proof.
  destruct l as [|z [|r l]]; cbn [radix_literal]; try discriminate.
  destruct (Ascii.eqb z "0") eqn:Hz;
    [|repeat match goal with |- context [if ?b then _ else _] => destruct b end;
      discriminate].
  apply Ascii.eqb_eq in Hz. subst z.
  assert (Hr : forall b : Z,
             match digits b l 0 0 with
             | (_, O, _) => None
             | (v0, _, []) => Some (of_Z v0)
             | _ => None
             end = Some v -> comma_free l).
  { intros b. destruct (digits_split b l 0 0) as (pre & E & Hp).
    destruct (digits b l 0 0) as [[v0 cnt] rest]. cbn [snd] in E.
    destruct cnt; [discriminate|]. destruct rest; [|discriminate].
    intros _. rewrite E, app_nil_r. exact Hp. }
  destruct (Ascii.eqb r "x" || Ascii.eqb r "X") eqn:Hx.
  { intros H. apply Hr in H. constructor; [discriminate|]. constructor; [|exact H].
    intros ->. discriminate Hx. }
  destruct (Ascii.eqb r "o" || Ascii.eqb r "O") eqn:Ho.
  { intros H. apply Hr in H. constructor; [discriminate|]. constructor; [|exact H].
    intros ->. discriminate Ho. }
  destruct (Ascii.eqb r "b" || Ascii.eqb r "B") eqn:Hb; [|discriminate].
  intros H. apply Hr in H. constructor; [discriminate|]. constructor; [|exact H].
  intros ->. discriminate Hb.
Qed.

Lemma numeric_string_no_comma (s : string) :
  string_to_number s <> NaN -> no_comma s.
Proof.
  unfold string_to_number, no_comma, trim.
  destruct (trim_left_white (list_ascii_of_string s)) as (w1 & E1 & H1).
  set (l' := trim_left (list_ascii_of_string s)) in *.
  destruct (trim_right_white l') as (w2 & El & H2).
  set (t := trim_right l') in *.
  intros Hnum. rewrite E1, El.
  apply comma_free_app; [exact H1|]. apply comma_free_app; [|exact H2].
  destruct t as [|c t'] eqn:Et; [constructor|]. rewrite <- Et in *.
  destruct (signed_decimal t) as [[v rest]|] eqn:Es.
  - destruct rest as [|c2 rest].
    + apply signed_split in Es as (pre & -> & Hp). rewrite app_nil_r. exact Hp.
    + destruct (radix_literal t) as [u|] eqn:Er; [|congruence].
      exact (radix_literal_comma_free _ _ Er).
  - destruct (radix_literal t) as [u|] eqn:Er; [|congruence].
    exact (radix_literal_comma_free _ _ Er).
Qed.

Lemma uint_no_comma (d : Decimal.uint) :
  no_comma (NilEmpty.string_of_uint d).
Proof.
  unfold no_comma, comma_free.
  induction d; cbn; constructor; (discriminate || assumption).
Qed.

Lemma Z_to_string_no_comma (z : Z) : no_comma (Num.Z_to_string z).
Proof.
  unfold Num.Z_to_string, NilZero.string_of_int, NilZero.string_of_uint.
  destruct (Z.to_int z) as [d|d].
  - destruct d; try apply uint_no_comma. apply comma_free_check. reflexivity.
  - unfold no_comma. cbn [list_ascii_of_string]. constructor; [discriminate|].
    destruct d; try apply uint_no_comma. apply comma_free_check. reflexivity.
Qed.

Lemma digit_char_no_comma (x : Z) : 0 <= x < 10 -> Num.digit_char x <> ","%char.
Proof.
  intros H.
  assert (E : x = 0 \/ x = 1 \/ x = 2 \/ x = 3 \/ x = 4 \/ x = 5 \/ x = 6 \/ x = 7
              \/ x = 8 \/ x = 9) by lia.
  repeat (destruct E as [->|E]; [discriminate|]). subst. discriminate.
Qed.

Lemma frac_digits_no_comma (fuel : nat) (r d : Z) :
  0 <= r < d -> no_comma (Num.frac_digits fuel r d).
Proof.
  unfold no_comma, comma_free. revert r.
  induction fuel as [|fuel IH]; intros r Hr; cbn [Num.frac_digits]; [constructor|].
  destruct (r =? 0); cbn [list_ascii_of_string]; constructor.
  - apply digit_char_no_comma. split.
    + apply Z.div_pos; lia.
    + apply Z.div_lt_upper_bound; lia.
  - apply IH. apply Z.mod_pos_bound. lia.
Qed.

Lemma num_to_string_no_comma (n : num) : no_comma (Num.to_string n).
Proof.
  destruct n as [| | |q]; try (apply comma_free_check; reflexivity).
  unfold Num.to_string, no_comma. rewrite !list_ascii_app.
  apply comma_free_app; [|apply comma_free_app].
  - destruct (Qnum (Qred q) <? 0); apply comma_free_check; reflexivity.
  - apply Z_to_string_no_comma.
  - destruct (_ =? 0); [constructor|].
    change (list_ascii_of_string ("." ++ ?x)) with ("."%char :: list_ascii_of_string x).
    cbn [String.append list_ascii_of_string].
    constructor; [discriminate|].
    apply frac_digits_no_comma. apply Z.mod_pos_bound. lia.
Qed.

Lemma low_battery_alert_plain (bp : value) :
  Forall plain_alert (low_battery_alert bp).
Proof.
  unfold low_battery_alert. destruct (op_lt bp (JNumber (Fin 28))) eqn:Hlow;
    [|constructor].
  constructor; [|constructor]. split; [|reflexivity].
  unfold no_comma. rewrite !list_ascii_app.
  apply comma_free_app; [apply comma_free_check; reflexivity|].
  apply comma_free_app; [|apply comma_free_check; reflexivity].
  destruct bp as [| |b|n|s]; cbn [Js.to_string].
  - apply comma_free_check. reflexivity.
  - apply comma_free_check. reflexivity.
  - destruct b; apply comma_free_check; reflexivity.
  - apply num_to_string_no_comma.
  - apply numeric_string_no_comma. intros Hnan.
    unfold op_lt, less_than in Hlow. cbn [to_number] in Hlow. rewrite Hnan in Hlow.
    discriminate Hlow.
Qed.

(** X16: the alerts survive the trip to the dashboard.  The server joins
    the alerts of a row with [", "] and the dashboard splits the string on
    [", "] and drops empty pieces; no alert the server can push holds a
    comma or is empty, so the dashboard's array is exactly the list of
    pushed alerts, in order, and a row adds an entry to the alert log
    exactly when it pushed at least one alert. *)
Theorem alerts_reach_dashboard (g : Globals) (r : RawRow) :
  exists p g', processRowData g r = Normal (p, g')
    /\ alerts p = String.concat ", " (pushed_alerts r)
    /\ alertArray (alerts p) = pushed_alerts r
    /\ forall prev,
         add_alert_messages prev p =
         match pushed_alerts r with
         | [] => prev
         | a => (prev ++ [(json_cell (timestamp r), a)])%list
         end.
Proof.
  rewrite processRowData_unfold. eexists _, _. split; [reflexivity|].
  cbn [alerts]. fold (pushed_alerts r). split; [reflexivity|].
  assert (Hrt : alertArray (String.concat ", " (pushed_alerts r)) = pushed_alerts r).
  { apply alertArray_concat. unfold pushed_alerts. apply Forall_app. split.
    - apply classification_alerts_plain_each.
    - apply low_battery_alert_plain. }
  split; [exact Hrt|]. intros prev. unfold add_alert_messages. cbn [alerts raw].
  fold (pushed_alerts r). rewrite Hrt. reflexivity.
Qed.

(** ** Summary against advance, and what the rewrite does to the data *)

(** X17: the summary says "all rows done" exactly when the next advance
    on the same file would answer "done"; and the row it reports never
    exceeds the number of rows. *)
Theorem summary_agrees_with_next (filePath : option string) (s : Server) (sm : Summary) :
  summary filePath s = Some sm ->
  (current_row sm <= total_rows sm)%nat
  /\ battery_discharge_cycles sm = batteryDischargeCycles (globals s)
  /\ (current_row sm = total_rows sm <-> next filePath s = (Done, s)).
Proof.
  unfold summary, next. destruct filePath as [path|]; [|discriminate].
  destruct (String.eqb path ""); [discriminate|].
  destruct (disk s !! path) as [data|] eqn:Hd; [|discriminate].
  unfold loadExcelData. rewrite Hd. cbn [default id].
  intros [= <-]. cbn [current_row total_rows battery_discharge_cycles].
  split; [lia|]. split; [reflexivity|].
  destruct (Nat.leb_spec (length data) (currentRowIndex (globals s))) as [Hle|Hlt].
  - split; [reflexivity|lia].
  - split; [lia|].
    destruct (data !! currentRowIndex (globals s)) as [row|];
      [|intros H; apply (f_equal fst) in H; discriminate H].
    destruct (processRowData_counter (globals s) (cells row)) as (p & g1 & -> & _).
    intros H. apply (f_equal fst) in H. discriminate H.
Qed.

Lemma summary_agrees_with_next_witness :
  let r := mk_row false "normal" 0 1500 false (num_value 80) in
  let s0 := snd (upload (Some {| name := "a.xlsx"; content := [Unprocessed r] |}) true boot) in
  let s1 := snd (next (Some "uploads/a.xlsx") s0) in
  next (Some "uploads/a.xlsx") s1 = (Done, s1).
Proof.
  intros r s0 s1.
  apply (summary_agrees_with_next (Some "uploads/a.xlsx") s1
           {| total_rows := 1; current_row := 1; battery_discharge_cycles := 0 |});
    reflexivity.
Defined.

Lemma process_rows_raw (rows : list RawRow) (g : Globals) (ps : list ProcessedRow)
    (g' : Globals) :
  process_rows g rows = Normal (ps, g') -> map raw ps = rows.
Proof.
  revert g ps g'. induction rows as [|r rows IH]; intros g ps g'; cbn [process_rows].
  - intros [= <- _]. reflexivity.
  - rewrite processRowData_unfold. cbn [Js.bind].
    match goal with |- context [process_rows ?g1 rows] =>
      destruct (process_rows_total rows g1) as (qs & g2 & Hq & _);
      pose proof (IH g1 qs g2 Hq) as Hraw; rewrite Hq
    end.
    cbn [Js.bind]. intros [= <- _]. cbn [map raw]. f_equal. exact Hraw.
Qed.

Lemma spread_cell_present (old new : value) :
  new <> JUndefined -> spread_cell old new = new.
Proof. destruct new; [congruence|reflexivity..]. Qed.

Lemma spread_raw_full (row over : RawRow) :
  fully_populated over -> spread_raw row over = over.
Proof.
  intros (H1 & H2 & H3 & H4 & H5 & H6 & H7 & H8 & H9).
  unfold spread_raw. rewrite !spread_cell_present by assumption.
  destruct over; reflexivity.
Qed.

(** X18: the rewrite moves the data up by one row.  Once rows [j] and
    [j + 1] have been delivered and row [j + 1] has a cell in every
    column, the stored row [j] holds the raw columns of row [j + 1]: what
    the sheet held for row [j] is gone. *)
Theorem stored_raw_columns_shift (f : UploadedFile) (s : Server) (K j : nat)
    (next_row : SheetRow) :
  (S j < Nat.min K (length (content f)))%nat ->
  content f !! S j = Some next_row ->
  fully_populated (cells next_row) ->
  let path := "uploads/" ++ name f in
  let out := advance K (Some path) (snd (upload (Some f) true s)) in
  exists data x,
    disk (snd out) !! path = Some data
    /\ data !! j = Some x
    /\ cells x = cells next_row.
Proof.
  intros Hj Hnext Hfull path out.
  assert (Hd : disk (snd out) !! path
               = Some (stored_after (content f) ([] ++ delivered (fst out)))).
  { apply (advance_stores path (content f) K eq_refl).
    - cbn. rewrite lookup_insert_eq. unfold stored_after. f_equal.
      apply list_eq. intros i. rewrite list_lookup_imap.
      destruct (content f !! i); reflexivity.
    - reflexivity. }
  cbn [app] in Hd.
  destruct (upload_in_step f s) as [H0 Hc0].
  destruct (advance_replays path eq_refl _ K _ H0) as (ps & g' & s' & Hps & Hadv & _).
  fold path in Hadv. unfold out in *. rewrite Hadv in *. cbn [fst snd] in *.
  rewrite delivered_replay in Hd.
  rewrite Hc0, drop_0 in Hps. apply process_rows_raw in Hps.
  assert (Hp : exists p, ps !! S j = Some p /\ raw p = cells next_row).
  { assert (E : map raw ps !! S j = Some (cells next_row)).
    { rewrite Hps. rewrite lookup_take_lt by lia.
      unfold dataset_rows. rewrite list_lookup_fmap, Hnext. reflexivity. }
    rewrite list_lookup_fmap in E. destruct (ps !! S j) as [p|]; [|discriminate].
    exists p. split; [reflexivity|]. cbn in E. congruence. }
  destruct Hp as (p & Hp & Hraw).
  destruct (lookup_lt_is_Some_2 (content f) j) as [row Hrow]; [lia|].
  eexists _, (spread row p). split; [exact Hd|]. split.
  - unfold stored_after. rewrite list_lookup_imap, Hrow. cbn. rewrite Hp. reflexivity.
  - cbn [spread cells raw]. rewrite Hraw. apply spread_raw_full, Hfull.
Qed.

Lemma stored_raw_columns_shift_witness :
  let r0 := mk_row false "normal" 0 1500 false (num_value 80) in
  let r1 := mk_row true "normal" 3000 2000 false (num_value 80) in
  let f := {| name := "two.xlsx"; content := [Unprocessed r0; Unprocessed r1] |} in
  let out := advance 2 (Some "uploads/two.xlsx") (snd (upload (Some f) true boot)) in
  exists data x,
    disk (snd out) !! "uploads/two.xlsx" = Some data
    /\ data !! 0%nat = Some x
    /\ cells x = r1.
Proof.
  intros r0 r1 f out.
  apply (stored_raw_columns_shift f boot 2 0 (Unprocessed r1)).
  - cbn. lia.
  - reflexivity.
  - repeat split; discriminate.
Defined.

Lemma cursor_shared_between_files_witness :
  let r0 := mk_row false "normal" 0 1500 false (num_value 80) in
  let r1 := mk_row true "normal" 3000 2000 false (num_value 80) in
  let s0 := snd (upload (Some {| name := "b.xlsx";
                                 content := [Unprocessed r0; Unprocessed r1] |}) true boot) in
  let f := {| name := "a.xlsx"; content := [Unprocessed r0; Unprocessed r0] |} in
  let s1 := snd (advance 1 (Some "uploads/a.xlsx") (snd (upload (Some f) true s0))) in
  exists p s', next (Some "uploads/b.xlsx") s1 = (Data p, s') /\ raw p = r1.
Proof.
  intros r0 r1 s0 f s1.
  apply (cursor_shared_between_files f s0 1 "uploads/b.xlsx"
           [Unprocessed r0; Unprocessed r1]).
  - discriminate.
  - reflexivity.
  - reflexivity.
Defined.

(** ** Battery sources and the counter, row by row *)

(** X19: a row powered by Battery or Solar+Battery always discharges, and
    it is the only kind of row that can move the counter: the counter goes
    up by one on such a row when the action before it was not Discharging,
    and stays as it is on every other row, also on a row that discharges
    without a battery source. *)
Theorem battery_source_discharges_and_counts (g : Globals) (r : RawRow) :
  exists p g', processRowData g r = Normal (p, g')
    /\ discharge_cycles p
       = batteryDischargeCycles g
         + (if uses_battery (power_source p) && negb (is_discharging (lastBatteryAction g))
            then 1 else 0)
    /\ (if uses_battery (power_source p)
        then battery_action p = Discharging
        else battery_action p = Discharging ->
             power_source p = Some Solar /\ is_degraded (grid_status r) = true).
Proof.
  rewrite processRowData_unfold. eexists _, _. split; [reflexivity|].
  cbn [discharge_cycles power_source battery_action].
  set (ps := fst (classify_power_source r)).
  rewrite cycles_after_rule_a.
  destruct (uses_battery ps) eqn:Hu.
  - rewrite (proj2 (rule_a_iff r ps) Hu). cbn [andb rule_action].
    split; [|reflexivity].
    destruct (is_discharging (lastBatteryAction g)); reflexivity.
  - assert (Hn : battery_rule r ps <> RuleA)
      by (intros E; apply rule_a_iff in E; congruence).
    split.
    + destruct (battery_rule r ps); try congruence; cbn; lia.
    + intros Hd.
      assert (Hrule : battery_rule r ps = RuleD)
        by (destruct (battery_rule r ps); try discriminate Hd; congruence).
      unfold battery_rule in Hrule. rewrite Hu in Hrule.
      destruct (to_boolean (is_daytime r)
                && op_gt (solar_input_watts r) (household_power_demand_watts r)
                && op_lt (battery_percent r) (JNumber (Fin 100))); [discriminate|].
      destruct (is_normal (grid_status r)
                && op_lt (battery_percent r) (JNumber (Fin 100))); [discriminate|].
      destruct (is_degraded (grid_status r)) eqn:Hdeg; [|discriminate].
      split; [|reflexivity].
      unfold ps in *. rewrite power_source_cases in *. rewrite Hdeg in *.
      destruct (is_normal (grid_status r)) eqn:Hnorm;
        [apply normal_excludes_degraded in Hnorm; congruence|].
      destruct (to_boolean (is_daytime r)); [|discriminate Hu].
      destruct (op_ge (solar_input_watts r) (household_power_demand_watts r));
        [reflexivity|discriminate Hu].
Qed.
